(** * CenterNet pipeline orchestration: a shallow embedding

    The development follows two source files:
    - [networks/classes/centernet/Pipeline.py] (class [CenterNetPipeline]),
    - [networks/classes/centernet/models/ModelCenterNet.py] (class
      [ModelCenterNet]).

    Python values are a small dynamically typed universe, dictionaries are
    finite maps living in a store (so that [dict.update] is an in-place
    mutation seen by every alias), the file system is a tree, and every call
    into the deep-learning framework or into a collaborator class is an
    event answered by an oracle. *)

From Stdlib Require Import ZArith QArith Qround String Ascii List Bool Lia.
From stdpp Require Import base option list gmap strings fin_maps pretty.

Local Open Scope string_scope.
Local Open Scope list_scope.
Local Open Scope Z_scope.
Set Warnings "-register-all".

(** ** Python values *)

Module Py.

(** A Python [float]: the exact value denoted by the literal or the
    arithmetic, plus the two kinds of special value.  Rounding to binary64
    is not part of the model. *)
Inductive pyfloat :=
| FFinite (q : Q)
| FInf (negative : bool)
| FNan.

Definition handle := Z.

Inductive pyval :=
| VNone
| VBool (b : bool)
| VInt (z : Z)
| VFloat (f : pyfloat)
| VStr (s : string)
| VVocab (d : gmap string Z)
| VObj (h : handle)
| VList (l : list pyval).

Inductive exn :=
| KeyError (key : string)
| ValueError (msg : string)
| TypeError (msg : string)
| AssertionError (msg : string)
| IndexError
| ZeroDivisionError
| OverflowError
| EOFError
| OSError (path : string)
| SystemExit (code : Z)
| CollaboratorError (tag : handle).

Inductive outcome (A : Type) :=
| Ret (a : A)
| Raise (e : exn).
Arguments Ret {A} a.
Arguments Raise {A} e.

Definition returned {A} (o : outcome A) : bool :=
  match o with Ret _ => true | Raise _ => false end.

(** Truth value testing ([if v:], [v and w], [not v]). *)
Definition float_is_zero (f : pyfloat) : bool :=
  match f with
  | FFinite q => Qeq_bool q 0
  | _ => false
  end.

Definition truthy (v : pyval) : bool :=
  match v with
  | VNone => false
  | VBool b => b
  | VInt z => negb (z =? 0)
  | VFloat f => negb (float_is_zero f)
  | VStr s => negb (String.eqb s "")
  | VVocab d => negb (bool_decide (d = ∅))
  | VObj _ => true
  | VList l => match l with [] => false | _ => true end
  end.

(** The value of [a and not b], as Python computes it: [a] when [a] is
    falsy, otherwise the boolean [not b]. *)
Definition and_not (a b : pyval) : pyval :=
  if truthy a then VBool (negb (truthy b)) else a.

(** *** Numbers *)

Inductive num := NInt (z : Z) | NFloat (f : pyfloat).

Definition as_num (v : pyval) : option num :=
  match v with
  | VInt z => Some (NInt z)
  | VBool b => Some (NInt (Z.b2z b))
  | VFloat f => Some (NFloat f)
  | _ => None
  end.

Definition to_float (n : num) : pyfloat :=
  match n with
  | NInt z => FFinite (inject_Z z)
  | NFloat f => f
  end.

Definition Qneg_b (q : Q) : bool := negb (Qle_bool 0 q).

Definition float_floordiv (a b : pyfloat) : outcome pyfloat :=
  match a, b with
  | _, FFinite qb =>
      if Qeq_bool qb 0 then Raise ZeroDivisionError
      else match a with
           | FFinite qa => Ret (FFinite (inject_Z (Qfloor (qa / qb))))
           | _ => Ret FNan
           end
  | FFinite qa, FInf nb =>
      if Qeq_bool qa 0 then Ret (FFinite 0)
      else if Bool.eqb (Qneg_b qa) nb then Ret (FFinite 0)
      else Ret (FFinite (inject_Z (-1)))
  | _, _ => Ret FNan
  end.

(** [a // b] *)
Definition floordiv (a b : pyval) : outcome pyval :=
  match as_num a, as_num b with
  | Some (NInt x), Some (NInt y) =>
      if y =? 0 then Raise ZeroDivisionError else Ret (VInt (x / y))
  | Some x, Some y =>
      match float_floordiv (to_float x) (to_float y) with
      | Ret f => Ret (VFloat f)
      | Raise e => Raise e
      end
  | _, _ => Raise (TypeError "unsupported operand type(s) for //")
  end.

(** [a + k] for an integer literal [k] *)
Definition add_int (a : pyval) (k : Z) : outcome pyval :=
  match as_num a with
  | Some (NInt x) => Ret (VInt (x + k))
  | Some (NFloat (FFinite q)) => Ret (VFloat (FFinite (q + inject_Z k)))
  | Some (NFloat f) => Ret (VFloat f)
  | None => Raise (TypeError "unsupported operand type(s) for +")
  end.

Fixpoint repeat_string (n : nat) (s : string) : string :=
  match n with O => "" | S n' => s +:+ repeat_string n' s end.

(** [a * k] for an integer literal [k > 0]; a sequence is repeated. *)
Definition mul_int (a : pyval) (k : Z) : outcome pyval :=
  match a with
  | VStr s => Ret (VStr (repeat_string (Z.to_nat k) s))
  | VList l => Ret (VList (concat (replicate (Z.to_nat k) l)))
  | _ =>
      match as_num a with
      | Some (NInt x) => Ret (VInt (x * k))
      | Some (NFloat (FFinite q)) => Ret (VFloat (FFinite (q * inject_Z k)))
      | Some (NFloat f) => Ret (VFloat f)
      | None => Raise (TypeError "unsupported operand type(s) for *")
      end
  end.

Definition Qtrunc (q : Q) : Z :=
  if Qle_bool 0 q then Qfloor q else Qceiling q.

End Py.
Export Py.

(** ** Strings: [str], [int], [float], [os.path], [fnmatch] *)

Module PyStr.

Definition chars (s : string) : list ascii := list_ascii_of_string s.
Definition text (l : list ascii) : string := string_of_list_ascii l.

Definition code (c : ascii) : Z := Z.of_N (N_of_ascii c).

Definition digit_of (c : ascii) : option Z :=
  let n := code c in
  if (48 <=? n) && (n <=? 57) then Some (n - 48) else None.


(** ASCII white space, as removed by [int] and [float] around a literal. *)
Definition is_space (c : ascii) : bool :=
  let n := code c in
  ((9 <=? n) && (n <=? 13)) || ((28 <=? n) && (n <=? 32)).

Fixpoint lstrip (l : list ascii) : list ascii :=
  match l with
  | c :: r => if is_space c then lstrip r else l
  | [] => []
  end.

Definition strip (l : list ascii) : list ascii :=
  rev (lstrip (rev (lstrip l))).

Definition lower (c : ascii) : ascii :=
  let n := code c in
  if (65 <=? n) && (n <=? 90) then ascii_of_N (Z.to_N (n + 32)) else c.

(** [digit (["_"] digit)*] after its first digit has been seen: the digits
    read and the rest of the input. *)
Fixpoint digit_run (l : list ascii) : list Z * list ascii :=
  match l with
  | c :: r =>
      match digit_of c with
      | Some d => let '(ds, rest) := digit_run r in (d :: ds, rest)
      | None =>
          if Ascii.eqb c "_" then
            match r with
            | c2 :: r2 =>
                match digit_of c2 with
                | Some d => let '(ds, rest) := digit_run r2 in (d :: ds, rest)
                | None => ([], l)
                end
            | [] => ([], l)
            end
          else ([], l)
      end
  | [] => ([], [])
  end.

(** [digitpart]: fails unless the input starts with a digit. *)
Definition digitpart (l : list ascii) : option (list Z * list ascii) :=
  match l with
  | c :: r =>
      match digit_of c with
      | Some d => let '(ds, rest) := digit_run r in Some (d :: ds, rest)
      | None => None
      end
  | [] => None
  end.

Definition digits_value (ds : list Z) : Z :=
  fold_left (fun acc d => 10 * acc + d) ds 0.

Definition sign_of (l : list ascii) : bool * list ascii :=
  match l with
  | c :: r =>
      if Ascii.eqb c "-" then (true, r)
      else if Ascii.eqb c "+" then (false, r)
      else (false, l)
  | [] => (false, [])
  end.

Definition signed (neg : bool) (z : Z) : Z := if neg then - z else z.

(** [int(s)] for a string, base 10. *)
Definition parse_int (s : string) : option Z :=
  let '(neg, body) := sign_of (strip (chars s)) in
  match digitpart body with
  | Some (ds, []) => Some (signed neg (digits_value ds))
  | _ => None
  end.

(** [m * 10^e] as a rational *)
Definition scale10 (m e : Z) : Q :=
  if 0 <=? e then inject_Z (m * 10 ^ e)
  else Qmake m (Z.to_pos (10 ^ (- e))).

(** [[sign] digitpart] of an exponent *)
Definition exponent (l : list ascii) : option (Z * list ascii) :=
  let '(neg, body) := sign_of l in
  match digitpart body with
  | Some (ds, rest) => Some (signed neg (digits_value ds), rest)
  | None => None
  end.

(** [number [exponent]] with nothing left over *)
Definition parse_number (l : list ascii) : option Q :=
  let finish (ints fracs : list Z) (rest : list ascii) : option Q :=
    let m := digits_value (ints ++ fracs) in
    let k := Z.of_nat (length fracs) in
    match rest with
    | [] => Some (scale10 m (- k))
    | c :: r =>
        if Ascii.eqb (lower c) "e" then
          match exponent r with
          | Some (e, []) => Some (scale10 m (e - k))
          | _ => None
          end
        else None
    end in
  match digitpart l with
  | Some (ints, rest) =>
      match rest with
      | c :: r =>
          if Ascii.eqb c "." then
            match digitpart r with
            | Some (fracs, rest') => finish ints fracs rest'
            | None => finish ints [] r
            end
          else finish ints [] rest
      | [] => finish ints [] []
      end
  | None =>
      match l with
      | c :: r =>
          if Ascii.eqb c "." then
            match digitpart r with
            | Some (fracs, rest') => finish [] fracs rest'
            | None => None
            end
          else None
      | [] => None
      end
  end.

(** [float(s)] for a string. *)
Definition parse_float (s : string) : option pyfloat :=
  let '(neg, body) := sign_of (strip (chars s)) in
  let word := text (map lower body) in
  if String.eqb word "inf" || String.eqb word "infinity" then Some (FInf neg)
  else if String.eqb word "nan" then Some FNan
  else match parse_number body with
       | Some q => Some (FFinite (if neg then Qopp q else q))
       | None => None
       end.

End PyStr.
Export PyStr.

(** [float(v)] and [int(v)] on a value *)
Definition py_float (v : pyval) : outcome pyfloat :=
  match v with
  | VStr s =>
      match parse_float s with
      | Some f => Ret f
      | None => Raise (ValueError ("could not convert string to float: " +:+ s))
      end
  | _ =>
      match as_num v with
      | Some n => Ret (to_float n)
      | None => Raise (TypeError "float() argument must be a string or a number")
      end
  end.

Definition py_int (v : pyval) : outcome Z :=
  match v with
  | VStr s =>
      match parse_int s with
      | Some z => Ret z
      | None => Raise (ValueError ("invalid literal for int() with base 10: " +:+ s))
      end
  | _ =>
      match as_num v with
      | Some (NInt z) => Ret z
      | Some (NFloat (FFinite q)) => Ret (Qtrunc q)
      | Some (NFloat (FInf _)) => Raise OverflowError
      | Some (NFloat FNan) => Raise (ValueError "cannot convert float NaN to integer")
      | None => Raise (TypeError "int() argument must be a string or a number")
      end
  end.

(** [str(n)] for an integer *)
Definition str_int (z : Z) : string := pretty z.

(** The line feed, the ['\n'] of the program's texts. *)
Definition newline : string := String "010"%char EmptyString.

(** ** Paths and file-name patterns *)

Module Path.

Definition sep : ascii := "/"%char.

Definition starts_with_sep (l : list ascii) : bool :=
  match l with c :: _ => Ascii.eqb c sep | [] => false end.

Definition ends_with_sep (l : list ascii) : bool :=
  match last l with Some c => Ascii.eqb c sep | None => false end.

(** [os.path.join(a, b)] (POSIX) *)
Definition join_chars (a b : list ascii) : list ascii :=
  if starts_with_sep b then b
  else match a with
       | [] => b
       | _ => if ends_with_sep a then a ++ b else a ++ sep :: b
       end.

Definition join (a b : string) : string := text (join_chars (chars a) (chars b)).

(** [s.split('/')]: the pieces between separators, never an empty list. *)
Fixpoint split_sep (l : list ascii) : list (list ascii) :=
  match l with
  | [] => [[]]
  | c :: r =>
      if Ascii.eqb c sep then [] :: split_sep r
      else match split_sep r with
           | piece :: pieces => (c :: piece) :: pieces
           | [] => [[c]]
           end
  end.

(** [s.split('/')[-1]] *)
Definition last_piece (l : list ascii) : list ascii :=
  default [] (last (split_sep l)).

Fixpoint rstrip_sep_rev (l : list ascii) : list ascii :=
  match l with
  | c :: r => if Ascii.eqb c sep then rstrip_sep_rev r else l
  | [] => []
  end.

(** [os.path.split(p)]: everything up to the last separator, and what
    follows it; trailing separators of the head are dropped unless the
    head consists of separators only. *)
Definition split_path (p : list ascii) : list ascii * list ascii :=
  let tail := last_piece p in
  let head := take (length p - length tail) p in
  let stripped := rev (rstrip_sep_rev (rev head)) in
  (match stripped with [] => head | _ => stripped end, tail).

End Path.

Module Fnmatch.

Inductive tok :=
| TStar
| TAny
| TLit (c : ascii)
| TClass (negate : bool) (ranges : list (ascii * ascii)).

(** The characters of a bracket expression as ranges: [a-z] is a range,
    any other character stands for itself. *)
Fixpoint class_ranges (l : list ascii) : list (ascii * ascii) :=
  match l with
  | lo :: r =>
      match r with
      | dash :: hi :: r' =>
          if Ascii.eqb dash "-" then (lo, hi) :: class_ranges r'
          else (lo, lo) :: class_ranges r
      | _ => (lo, lo) :: class_ranges r
      end
  | [] => []
  end.

(** Looks for the [']'] that closes a bracket expression; a [']'] in first
    position is an ordinary member.  Gives the members and what follows. *)
Fixpoint until_close (first : bool) (l : list ascii)
  : option (list ascii * list ascii) :=
  match l with
  | c :: r =>
      if Ascii.eqb c "]" && negb first then Some ([], r)
      else match until_close false r with
           | Some (body, rest) => Some (c :: body, rest)
           | None => None
           end
  | [] => None
  end.

Definition bracket (l : list ascii) : option (tok * list ascii) :=
  let '(neg, l') :=
    match l with
    | c :: r => if Ascii.eqb c "!" then (true, r) else (false, l)
    | [] => (false, l)
    end in
  match until_close true l' with
  | Some (body, rest) => Some (TClass neg (class_ranges body), rest)
  | None => None
  end.

Fixpoint tokens (fuel : nat) (l : list ascii) : list tok :=
  match fuel, l with
  | S fuel', c :: r =>
      if Ascii.eqb c "*" then TStar :: tokens fuel' r
      else if Ascii.eqb c "?" then TAny :: tokens fuel' r
      else if Ascii.eqb c "[" then
        match bracket r with
        | Some (t, rest) => t :: tokens fuel' rest
        | None => TLit c :: tokens fuel' r
        end
      else TLit c :: tokens fuel' r
  | _, _ => []
  end.

Definition in_class (ranges : list (ascii * ascii)) (c : ascii) : bool :=
  existsb (fun '(lo, hi) => (code lo <=? code c) && (code c <=? code hi)) ranges.

Fixpoint matches (ts : list tok) (s : list ascii) {struct ts} : bool :=
  match ts with
  | [] => match s with [] => true | _ => false end
  | TStar :: ts' =>
      (fix star (s : list ascii) : bool :=
         matches ts' s ||
         match s with
         | _ :: s' => star s'
         | [] => false
         end) s
  | TAny :: ts' =>
      match s with _ :: s' => matches ts' s' | [] => false end
  | TLit c :: ts' =>
      match s with
      | c' :: s' => Ascii.eqb c c' && matches ts' s'
      | [] => false
      end
  | TClass neg ranges :: ts' =>
      match s with
      | c' :: s' => xorb neg (in_class ranges c') && matches ts' s'
      | [] => false
      end
  end.

(** [fnmatch.fnmatchcase(name, pat)] *)
Definition fnmatch (name pat : list ascii) : bool :=
  matches (tokens (length pat) pat) name.

(** [glob.has_magic] *)
Definition has_magic (l : list ascii) : bool :=
  existsb (fun c => Ascii.eqb c "*" || Ascii.eqb c "?" || Ascii.eqb c "[") l.

End Fnmatch.

(** ** The file system *)

Module FS.
Import Path Fnmatch.

Inductive node :=
| File
| Dir (entries : list (string * node)).

Definition entry_named (name : string) (e : string * node) : bool :=
  String.eqb (fst e) name.

Definition child (name : string) (n : node) : option node :=
  match n with
  | Dir es => snd <$> List.find (entry_named name) es
  | File => None
  end.

Fixpoint descend (names : list string) (n : node) : option node :=
  match names with
  | [] => Some n
  | name :: rest =>
      match child name n with
      | Some n' => descend rest n'
      | None => None
      end
  end.

Definition is_dir_node (n : node) : bool :=
  match n with Dir _ => true | File => false end.

(** The components of a path that name an entry: neither empty, nor [.],
    nor [..]. *)
Definition is_name (piece : list ascii) : bool :=
  match piece with
  | [] => false
  | _ => negb (String.eqb (text piece) ".") && negb (String.eqb (text piece) "..")
  end.

(** Path resolution, one component at a time, from the directory reached
    so far ([names], counted from the root).  Every component is looked up
    in a directory: an empty component and [.] stay there, [..] goes to the
    parent (the root is its own parent), a name goes to the entry of that
    name.  So [a/../b] needs [a] to be a directory, and [f/.] fails for a
    file [f].  Relative paths start at the root as well (the working
    directory is the root), and there are no symbolic links. *)
Fixpoint follow (fs : node) (pieces : list (list ascii)) (names : list string)
  : option (list string) :=
  match pieces with
  | [] => Some names
  | piece :: rest =>
      match descend names fs with
      | Some (Dir _) =>
          if is_name piece then
            match descend (names ++ [text piece]) fs with
            | Some _ => follow fs rest (names ++ [text piece])
            | None => None
            end
          else if String.eqb (text piece) ".."
               then follow fs rest (removelast names)
               else follow fs rest names
      | _ => None
      end
  end.

(** Where a path leads, if anywhere.  The empty path leads nowhere. *)
Definition locate (fs : node) (p : string) : option (list string) :=
  if String.eqb p "" then None else follow fs (split_sep (chars p)) [].

(** What a path names, if anything. *)
Definition resolve (fs : node) (p : string) : option node :=
  match locate fs p with
  | Some names => descend names fs
  | None => None
  end.

(** [os.path.isdir], [os.path.isfile], [os.path.lexists] *)
Definition isdir (fs : node) (p : string) : bool :=
  match resolve fs p with Some (Dir _) => true | _ => false end.

Definition isfile (fs : node) (p : string) : bool :=
  match resolve fs p with Some File => true | _ => false end.

Definition lexists (fs : node) (p : string) : bool :=
  match resolve fs p with Some _ => true | None => false end.

(** [os.listdir]: the names in the directory, in the order the system
    reports them. *)
Definition listdir (fs : node) (p : string) : outcome (list string) :=
  match resolve fs p with
  | Some (Dir es) => Ret (map fst es)
  | _ => Raise (OSError p)
  end.

Fixpoint remove (names : list string) (n : node) : node :=
  match names, n with
  | [], _ => n
  | _, File => n
  | [name], Dir es => Dir (List.filter (fun e => negb (entry_named name e)) es)
  | name :: rest, Dir es =>
      Dir (map (fun e => if entry_named name e
                         then (fst e, remove rest (snd e)) else e) es)
  end.

(** The directory at [names] without its entries. *)
Fixpoint clear (names : list string) (n : node) {struct names} : node :=
  match n with
  | File => File
  | Dir es =>
      match names with
      | [] => Dir []
      | name :: rest =>
          Dir (map (fun e => if entry_named name e
                             then (fst e, clear rest (snd e)) else e) es)
      end
  end.

(** The last component of a path that is not empty. *)
Definition last_component (p : string) : option (list ascii) :=
  last (List.filter (fun piece => match piece with [] => false | _ => true end)
                    (split_sep (chars p))).

(** [os.rmdir]: removes an empty directory.  The root is refused, and so
    is a path whose last component is [.] or [..]. *)
Definition rmdir (fs : node) (p : string) : outcome unit * node :=
  match locate fs p, last_component p with
  | Some (name :: names), Some piece =>
      match descend (name :: names) fs with
      | Some (Dir []) =>
          if is_name piece then (Ret tt, remove (name :: names) fs)
          else (Raise (OSError p), fs)
      | _ => (Raise (OSError p), fs)
      end
  | _, _ => (Raise (OSError p), fs)
  end.

(** [shutil.rmtree]: everything in the directory is deleted, then the
    directory itself, by [os.rmdir] of the same path.  When that last step
    is refused the call fails and the directory stays, empty. *)
Definition rmtree (fs : node) (p : string) : outcome unit * node :=
  match locate fs p with
  | Some names =>
      match descend names fs with
      | Some (Dir _) => rmdir (clear names fs) p
      | _ => (Raise (OSError p), fs)
      end
  | None => (Raise (OSError p), fs)
  end.

(** *** [glob.glob] *)

Definition ishidden (name : list ascii) : bool :=
  match name with c :: _ => Ascii.eqb c "." | [] => false end.

Definition iterdir (fs : node) (dirname : list ascii) (dironly : bool)
  : list (list ascii) :=
  let d := match dirname with [] => "." | _ => text dirname end in
  match resolve fs d with
  | Some (Dir es) =>
      map (fun e => chars (fst e))
          (List.filter (fun e => negb dironly || is_dir_node (snd e)) es)
  | _ => []
  end.

Definition glob1 (fs : node) (dirname pattern : list ascii) (dironly : bool)
  : list (list ascii) :=
  let names := iterdir fs dirname dironly in
  let names := if ishidden pattern then names
               else List.filter (fun x => negb (ishidden x)) names in
  List.filter (fun x => fnmatch x pattern) names.

Definition glob0 (fs : node) (dirname basename : list ascii) (dironly : bool)
  : list (list ascii) :=
  match basename with
  | [] => if isdir fs (text dirname) then [basename] else []
  | _ => if lexists fs (text (join_chars dirname basename))
         then [basename] else []
  end.

Fixpoint iglob (fuel : nat) (fs : node) (pathname : list ascii)
    (dironly : bool) : list (list ascii) :=
  match fuel with
  | O => []
  | S fuel' =>
      let '(dirname, basename) := split_path pathname in
      if negb (has_magic pathname) then
        match basename with
        | [] => if isdir fs (text dirname) then [pathname] else []
        | _ => if lexists fs (text pathname) then [pathname] else []
        end
      else
        match dirname with
        | [] => glob1 fs dirname basename dironly
        | _ =>
            let dirs :=
              if negb (bool_decide (dirname = pathname)) && has_magic dirname
              then iglob fuel' fs dirname true
              else [dirname] in
            let glob_in_dir := if has_magic basename then glob1 else glob0 in
            flat_map
              (fun d => map (join_chars d) (glob_in_dir fs d basename dironly))
              dirs
        end
  end.

Definition glob (fs : node) (pathname : string) : list string :=
  map text (iglob (S (String.length pathname)) fs (chars pathname) false).



End FS.

(** ** The world the program runs in *)

Module World.
Import FS.

Definition loc := positive.

(** Calls that leave the two source files: the framework, the dataset
    builders, the cropper, the bounding-box handler.  The index is the type
    of what the call gives back. *)
Inductive call : Type -> Type :=
| Repr (v : pyval) : call string
| GenerateModel (input_shape mode n_category : pyval) : call pyval
| ModelCheckpoint (filepath : string) (save_best_only save_weights_only : bool)
    (monitor mode : string) : call pyval
| TensorBoard (log_dir : string) (batch_size update_freq : pyval) : call pyval
| LearningRateScheduler (schedule : Z -> outcome pyval) : call pyval
| LoadWeights (model : pyval) (path : string) : call unit
| Summary (model : pyval) : call unit
| GetTrainingSet (dataset : pyval) : call (pyval * pyval)
| GetValidationSet (dataset : pyval) : call (pyval * pyval)
| GetTestSet (dataset : pyval) : call (pyval * pyval)
| GetXYTraining (dataset : pyval) : call (pyval * pyval)
| ImageDataGenerator (brightness_range : Q * Q) (rotation_range : Z)
    (width_shift_range height_shift_range zoom_range : Q) : call pyval
| FlowFromDataframe (generator x y : pyval) (target_size : Z * Z)
    (batch_size : pyval) : call pyval
| Fit (generator : bool) (model training : pyval)
    (epochs steps_per_epoch validation_data validation_steps callbacks
       initial_epoch : pyval) : call unit
| Evaluate (model evaluation_set steps : pyval) : call pyval
| Predict (model dataset verbose : pyval) : call pyval
| Adam (lr : pyval) (decay : pyfloat) : call pyval
| Compile (model optimizer : pyval) (loss : string) (metrics : list string)
    : call unit
| NewPreprocessingDataset (params : loc) : call pyval
| PreprocessingGenerate (dataset : pyval) : call (gmap string Z)
| GetDatasetLabels (dataset : pyval) : call pyval
| AnnotateSplitRecommend (dataset avg_sizes : pyval) : call pyval
| NewHourglassNetwork (run_id : pyval) (params : loc)
    (num_classes num_stacks num_channels : Z) (in_res out_res : Z * Z)
    : call pyval
| HourglassTrain (model : pyval) (params : loc) (train_list test_list : pyval)
    (weights_path : string) : call unit
| NewDetectionDataset (params : loc) : call pyval
| NewClassificationDataset (params : loc) : call pyval
| DatasetGenerate (dataset train_list test_list : pyval) : call (pyval * pyval)
| MiniTestDataset (paths : list pyval) (input_shape : pyval) : call pyval
| GetBBoxes (predictions : pyval) (mode : string)
    (annotation_list test_images_path : pyval) (show : bool) : call pyval
| RegenerateCropsTrain (train_list : pyval) (path : string) : call pyval
| RegenerateCropsTest (bbox_predictions : pyval) (path : string) : call pyval
| LoadCropCharacters (path : string) (mode : string) : call pyval.

Inductive event :=
| Prompted (prompt : string) (answer : option string)
| Removed (folder : string)
| Logged (logger level msg : string) (args : list pyval)
| Updated (target source : loc)
| Called {R : Type} (c : call R).

(** The fields of the [CenterNetPipeline] object. *)
Record pipeline := {
  dataset_params : loc;
  input_shape : pyval;
  dict_cat : gmap string Z;
  test_list : pyval;
}.

Record world := {
  heap : gmap loc (gmap string pyval);
  fs : node;
  cwd : string;
  stdin : list string;
  trace : list event;
  self : pipeline;
}.

Definition with_heap (h : gmap loc (gmap string pyval)) (w : world) : world :=
  {| heap := h; fs := fs w; cwd := cwd w; stdin := stdin w;
     trace := trace w; self := self w |}.
Definition with_fs (t : node) (w : world) : world :=
  {| heap := heap w; fs := t; cwd := cwd w; stdin := stdin w;
     trace := trace w; self := self w |}.
Definition with_stdin (l : list string) (w : world) : world :=
  {| heap := heap w; fs := fs w; cwd := cwd w; stdin := l;
     trace := trace w; self := self w |}.
Definition with_self (p : pipeline) (w : world) : world :=
  {| heap := heap w; fs := fs w; cwd := cwd w; stdin := stdin w;
     trace := trace w; self := p |}.
Definition record (e : event) (w : world) : world :=
  {| heap := heap w; fs := fs w; cwd := cwd w; stdin := stdin w;
     trace := trace w ++ [e]; self := self w |}.

(** The dictionary a reference points to. *)
Definition dict_at (l : loc) (w : world) : gmap string pyval :=
  default ∅ (heap w !! l).

(** *** Computations: state and exceptions *)

Definition M (A : Type) : Type := world -> outcome A * world.

Definition ret {A} (a : A) : M A := fun w => (Ret a, w).
Definition raise {A} (e : exn) : M A := fun w => (Raise e, w).
Definition bind {A B} (m : M A) (k : A -> M B) : M B :=
  fun w => match m w with
           | (Ret a, w') => k a w'
           | (Raise e, w') => (Raise e, w')
           end.
Definition lift {A} (o : outcome A) : M A := fun w => (o, w).
Definition emit (e : event) : M unit := fun w => (Ret tt, record e w).

(** [try: body except ValueError: handler] *)
Definition except_ValueError {A} (body handler : M A) : M A :=
  fun w => match body w with
           | (Raise (ValueError _), w') => handler w'
           | r => r
           end.

End World.
Export World.
Import FS.

Declare Scope py_scope.
Delimit Scope py_scope with py.
Notation "x <~ c ;; k" := (bind c (fun x => k))
  (at level 100, c at next level, right associativity) : py_scope.
Notation "'unpack' a , b <~ c ;; k" := (bind c (fun x => let '(a, b) := x in k))
  (at level 100, a name, b name, c at next level, right associativity)
  : py_scope.
Notation "c ;; k" := (bind c (fun _ => k))
  (at level 100, right associativity) : py_scope.
Local Open Scope py_scope.

(** ** Calling conventions *)

Module Calling.

(** A function's parameters: the required ones, and the ones with a
    default value. *)
Record signature := {
  fname : string;
  required : list string;
  optional : list (string * pyval);
}.

Definition kwargs := list (string * pyval).

Definition given (kw : kwargs) (name : string) : option pyval :=
  snd <$> List.find (fun a => String.eqb (fst a) name) kw.

Definition accepts (sg : signature) (name : string) : bool :=
  existsb (String.eqb name) (required sg ++ map fst (optional sg)).

(** The first keyword that names no parameter. *)
Definition unexpected (sg : signature) (kw : kwargs) : option string :=
  fst <$> List.find (fun a => negb (accepts sg (fst a))) kw.

(** The required parameters left without a value. *)
Definition missing (sg : signature) (kw : kwargs) : list string :=
  List.filter (fun n => match given kw n with Some _ => false | None => true end)
              (required sg).

(** The value of a parameter: the one given, else the default. *)
Definition bound (sg : signature) (kw : kwargs) (name : string) : pyval :=
  match given kw name with
  | Some v => v
  | None => default VNone (given (optional sg) name)
  end.

(** The names of an error message: ['a'], ['a' and 'b'],
    ['a', 'b', and 'c']. *)
Definition quoted (name : string) : string := "'" +:+ name +:+ "'".

Fixpoint quoted_list (names : list string) : string :=
  match names with
  | [] => ""
  | [name] => "and " +:+ quoted name
  | name :: rest => quoted name +:+ ", " +:+ quoted_list rest
  end.

Definition quoted_names (names : list string) : string :=
  match names with
  | [] => ""
  | [a] => quoted a
  | [a; b] => quoted a +:+ " and " +:+ quoted b
  | _ => quoted_list names
  end.

(** Binding the keyword arguments of a call to the parameters: a keyword
    that names no parameter, or a required parameter left without a value,
    is a [TypeError]. *)
Definition bind_keywords (sg : signature) (kw : kwargs)
  : outcome (string -> pyval) :=
  match unexpected sg kw with
  | Some name =>
      Raise (TypeError (fname sg +:+ "() got an unexpected keyword argument '"
                          +:+ name +:+ "'"))
  | None =>
      match missing sg kw with
      | [] => Ret (bound sg kw)
      | names =>
          Raise (TypeError (fname sg +:+ "() missing "
                              +:+ str_int (Z.of_nat (length names))
                              +:+ " required positional argument"
                              +:+ (if (length names =? 1)%nat then "" else "s")
                              +:+ ": " +:+ quoted_names names))
      end
  end.

(** The signatures of [ModelCenterNet] ([self] left out). *)
Definition sig_build_model : signature :=
  {| fname := "build_model";
     required := ["input_shape"; "mode"];
     optional := [("n_category", VInt 1)] |}.

Definition sig_setup_callbacks : signature :=
  {| fname := "setup_callbacks";
     required := ["weights_log_path"; "batch_size"; "lr"];
     optional := [] |}.

Definition sig_restore_weights : signature :=
  {| fname := "restore_weights";
     required := ["model"; "init_epoch"; "weights_folder_path"];
     optional := [] |}.

Definition sig_train : signature :=
  {| fname := "train";
     required := ["dataset"; "model"; "init_epoch"; "epochs"; "batch_size";
                  "callbacks"];
     optional := [("augmentation", VBool false)] |}.

Definition sig_evaluate : signature :=
  {| fname := "evaluate";
     required := ["model"; "evaluation_set"];
     optional := [("evaluation_steps", VNone)] |}.

Definition sig_predict : signature :=
  {| fname := "predict";
     required := ["model"; "dataset"];
     optional := [("verbose", VInt 1)] |}.

End Calling.
Export Calling.

(** ** Comparisons and conversions used by the two classes *)

Definition eq_int (v : pyval) (k : Z) : bool :=
  match as_num v with
  | Some (NInt x) => x =? k
  | Some (NFloat (FFinite q)) => Qeq_bool q (inject_Z k)
  | _ => false
  end.

(** [v < k] / [v > k]; comparing a non-number with a number is an error. *)
Definition lt_int (v : pyval) (k : Z) : outcome bool :=
  match as_num v with
  | Some (NInt x) => Ret (x <? k)
  | Some (NFloat (FFinite q)) => Ret (negb (Qle_bool (inject_Z k) q))
  | Some (NFloat (FInf neg)) => Ret neg
  | Some (NFloat FNan) => Ret false
  | None => Raise (TypeError "'<' not supported between these instances")
  end.

(** [v / k] *)
Definition truediv_int (v : pyval) (k : Z) : outcome pyval :=
  match as_num v with
  | Some (NInt x) => Ret (VFloat (FFinite (inject_Z x / inject_Z k)))
  | Some (NFloat (FFinite q)) => Ret (VFloat (FFinite (q / inject_Z k)))
  | Some (NFloat f) => Ret (VFloat f)
  | None => Raise (TypeError "unsupported operand type(s) for /")
  end.

Definition as_str (v : pyval) : outcome string :=
  match v with
  | VStr s => Ret s
  | _ => Raise (TypeError "expected str, bytes or os.PathLike object")
  end.

(** [v[i]] *)
Definition getitem (v : pyval) (i : nat) : outcome pyval :=
  match v with
  | VList l =>
      match l !! i with Some x => Ret x | None => Raise IndexError end
  | VStr s =>
      match chars s !! i with
      | Some c => Ret (VStr (text [c]))
      | None => Raise IndexError
      end
  | _ => Raise (TypeError "object is not subscriptable")
  end.

(** [v[:n]] *)
Definition slice_to (v : pyval) (n : nat) : outcome pyval :=
  match v with
  | VList l => Ret (VList (take n l))
  | VStr s => Ret (VStr (text (take n (chars s))))
  | _ => Raise (TypeError "object is not subscriptable")
  end.

(** The elements a [for] loop ranges over. *)
Definition elements_of (v : pyval) : outcome (list pyval) :=
  match v with
  | VList l => Ret l
  | VStr s => Ret (map (fun c => VStr (text [c])) (chars s))
  | _ => Raise (TypeError "object is not iterable")
  end.

(** ** The program *)

Section Program.

(** What the collaborators answer.  They are outside the two files: they
    may look at the world, but the model lets them change nothing in it, so
    that a world holds what the two classes have done themselves.  What a
    collaborator writes to disk (crops, checkpoints, logs) is no part of
    it. *)
Variable ask : forall R : Type, world -> call R -> outcome R.

Definition external {R} (c : call R) : M R :=
  fun w => (ask R w c, record (Called c) w).

Definition log (logger level msg : string) (args : list pyval) : M unit :=
  emit (Logged logger level msg args).

(** [input(prompt)]: one line of standard input, or [EOFError]. *)
Definition input (prompt : string) : M string :=
  fun w => match stdin w with
           | line :: rest =>
               (Ret line, record (Prompted prompt (Some line)) (with_stdin rest w))
           | [] => (Raise EOFError, record (Prompted prompt None) w)
           end.

(** [d[key]] *)
Definition lookup_key (d : loc) (key : string) : M pyval :=
  fun w => match dict_at d w !! key with
           | Some v => (Ret v, w)
           | None => (Raise (KeyError key), w)
           end.

(** [target.update(source)]: the dictionary [target] refers to is changed
    in place; on a key of both, the value of [source] is kept. *)
Definition update (target source : loc) : M unit :=
  fun w =>
    (Ret tt,
     record (Updated target source)
            (with_heap (<[target := dict_at source w ∪ dict_at target w]> (heap w)) w)).

(** [str(v)]; the text of a float or of an object is left to the oracle. *)
Definition py_str (v : pyval) : M string :=
  match v with
  | VInt z => ret (str_int z)
  | VStr s => ret s
  | VBool b => ret (if b then "True" else "False")
  | VNone => ret "None"
  | _ => external (Repr v)
  end.

Definition os_path_isdir (p : string) : M bool := fun w => (Ret (isdir (fs w) p), w).
Definition os_path_isfile (p : string) : M bool := fun w => (Ret (isfile (fs w) p), w).
Definition os_listdir (p : string) : M (list string) := fun w => (listdir (fs w) p, w).
Definition glob_glob (p : string) : M (list string) := fun w => (Ret (glob (fs w) p), w).
Definition os_getcwd : M string := fun w => (Ret (cwd w), w).

Definition shutil_rmtree (p : string) : M unit :=
  fun w => let '(r, t) := rmtree (fs w) p in
           (r, record (Removed p) (with_fs t w)).

Definition sys_exit {A} (code : Z) : M A := raise (SystemExit code).

Definition assert (cond : bool) (msg : string) : M unit :=
  if cond then ret tt else raise (AssertionError msg).

(** *** [ModelCenterNet] *)

Definition build_model (input_shape mode n_category : pyval) : M pyval :=
  mode_text <~ py_str mode ;;
  log "execution" "info" ("Building " +:+ mode_text +:+ " model...") [] ;;
  external (GenerateModel input_shape mode n_category).

(** The schedule handed to the learning-rate callback. *)
Definition lrs (lr : pyval) (epoch : Z) : outcome pyval :=
  if epoch >? 20 then truediv_int lr 10 else Ret lr.

Definition checkpoint_name : string := "weights.{epoch:02d}-{val_loss:.2f}.hdf5".

Definition setup_callbacks (weights_log_path batch_size lr : pyval) : M pyval :=
  folder <~ lift (as_str weights_log_path) ;;
  checkpointer <~ external (ModelCheckpoint (Path.join folder checkpoint_name)
                                            true true "val_loss" "min") ;;
  let tensorboard_log_dir := Path.join folder "tensorboard" in
  update_freq <~ lift (mul_int batch_size 10) ;;
  tensorboard <~ external (TensorBoard tensorboard_log_dir batch_size update_freq) ;;
  lr_schedule <~ external (LearningRateScheduler (lrs lr)) ;;
  ret (VList [tensorboard; checkpointer; lr_schedule]).

Definition init_epoch_str (init_epoch : pyval) : M string :=
  small <~ lift (lt_int init_epoch 10) ;;
  digits <~ py_str init_epoch ;;
  ret (if small : bool then "0" +:+ digits else digits).

Definition weights_pattern (epoch_text : string) : string :=
  "weights." +:+ epoch_text +:+ "-*.hdf5".

Definition restore_weights (model init_epoch weights_folder_path : pyval)
  : M unit :=
  epoch_text <~ init_epoch_str init_epoch ;;
  folder <~ lift (as_str weights_folder_path) ;;
  let restore_path_reg := Path.join folder (weights_pattern epoch_text) in
  list_files <~ glob_glob restore_path_reg ;;
  assert (bool_decide (0 < length list_files)%nat)
         ("ERR: No weights file match provided name " +:+ restore_path_reg) ;;
  let restore_filename :=
    text (Path.last_piece (chars (default "" (head list_files)))) in
  let restore_path := Path.join folder restore_filename in
  is_file <~ os_path_isfile restore_path ;;
  assert is_file
         ("ERR: Weight file in path " +:+ restore_path +:+ " seems not to be a file") ;;
  log "execution" "info" ("Restoring weights in file " +:+ restore_filename +:+ "...") [] ;;
  external (LoadWeights model restore_path).

Definition steps_for (set_size batch_size : pyval) : outcome pyval :=
  match floordiv set_size batch_size with
  | Ret q => add_int q 1
  | Raise e => Raise e
  end.

Definition train (dataset model init_epoch epochs batch_size callbacks
                    augmentation : pyval) : M unit :=
  log "training" "info" ("Training the model..." +:+ newline) [] ;;
  log "training" "info" "Architecture of the model:" [] ;;
  external (Summary model) ;;
  log "training" "info" "Starting the fitting procedure:" [] ;;
  epochs_text <~ py_str epochs ;;
  log "training" "info" ("* Total number of epochs:   " +:+ epochs_text) [] ;;
  init_text <~ py_str init_epoch ;;
  log "training" "info" ("* Initial epoch:            " +:+ init_text +:+ newline) [] ;;
  unpack training_set, training_set_size <~ external (GetTrainingSet dataset) ;;
  unpack validation_set, validation_set_size <~ external (GetValidationSet dataset) ;;
  training_steps <~ lift (steps_for training_set_size batch_size) ;;
  validation_steps <~ lift (steps_for validation_set_size batch_size) ;;
  (if truthy augmentation then
     unpack x, y <~ external (GetXYTraining dataset) ;;
     image_data_generator <~
       external (ImageDataGenerator (2 # 10, 1)%Q 10 (1 # 10)%Q (1 # 10)%Q (1 # 10)%Q) ;;
     generator <~ external (FlowFromDataframe image_data_generator x y (32, 32) batch_size) ;;
     external (Fit true model generator epochs training_steps validation_set
                   validation_steps callbacks init_epoch)
   else
     external (Fit false model training_set epochs training_steps validation_set
                   validation_steps callbacks init_epoch)) ;;
  log "training" "info" ("Training procedure performed successfully!" +:+ newline) [].

Definition is_none (v : pyval) : bool :=
  match v with VNone => true | _ => false end.

Definition evaluate (model evaluation_set evaluation_steps : pyval) : M pyval :=
  log "training" "info" "Evaluating the model..." [] ;;
  if negb (is_none evaluation_steps) && eq_int evaluation_steps 0 then
    log "training" "warn" "Skipping evaluation since provided set is empty" [] ;;
    ret VNone
  else
    external (Evaluate model evaluation_set evaluation_steps).

Definition predict (model dataset verbose : pyval) : M pyval :=
  log "test" "info" "Predicting..." [] ;;
  external (Predict model dataset verbose).

(** The methods as their callers reach them: by keyword. *)
Definition call_with {A} (sg : signature) (kw : kwargs)
    (body : (string -> pyval) -> M A) : M A :=
  args <~ lift (bind_keywords sg kw) ;; body args.

Definition call_build_model (kw : kwargs) : M pyval :=
  call_with sig_build_model kw
    (fun a => build_model (a "input_shape") (a "mode") (a "n_category")).

Definition call_setup_callbacks (kw : kwargs) : M pyval :=
  call_with sig_setup_callbacks kw
    (fun a => setup_callbacks (a "weights_log_path") (a "batch_size") (a "lr")).

Definition call_restore_weights (kw : kwargs) : M unit :=
  call_with sig_restore_weights kw
    (fun a => restore_weights (a "model") (a "init_epoch") (a "weights_folder_path")).

Definition call_train (kw : kwargs) : M unit :=
  call_with sig_train kw
    (fun a => train (a "dataset") (a "model") (a "init_epoch") (a "epochs")
                    (a "batch_size") (a "callbacks") (a "augmentation")).

Definition call_evaluate (kw : kwargs) : M pyval :=
  call_with sig_evaluate kw
    (fun a => evaluate (a "model") (a "evaluation_set") (a "evaluation_steps")).

Definition call_predict (kw : kwargs) : M pyval :=
  call_with sig_predict kw
    (fun a => predict (a "model") (a "dataset") (a "verbose")).

(** *** [CenterNetPipeline] *)

Definition this : M pipeline := fun w => (Ret (self w), w).

Definition set_dict_cat (d : gmap string Z) : M unit :=
  fun w => (Ret tt,
            with_self {| dataset_params := dataset_params (self w);
                         input_shape := input_shape (self w);
                         dict_cat := d;
                         test_list := test_list (self w) |} w).

Definition store_input_shape (v : pyval) : M unit :=
  fun w => (Ret tt,
            with_self {| dataset_params := dataset_params (self w);
                         input_shape := v;
                         dict_cat := dict_cat (self w);
                         test_list := test_list (self w) |} w).

Definition confirm_prompt (folder : string) : string :=
  "WARNING! You want to train the network without restoring weights,"
  +:+ newline +:+ "but folder " +:+ folder +:+ " is not empty." +:+ newline
  +:+ "It may contain tensorboard files and checkpoints from previous runs."
  +:+ newline
  +:+ "Do you wish to delete all existing files in that folder and proceed "
  +:+ "with the training?" +:+ newline
  +:+ "Please refuse to abort the execution." +:+ newline
  +:+ "Confirm? [Y/n]" +:+ newline.

Definition affirmative : list string := ["y"; "Y"; "yes"; "ok"].

Definition check_no_weights_in_run_folder (folder : string) : M unit :=
  is_dir <~ os_path_isdir folder ;;
  if is_dir : bool then
    names <~ os_listdir folder ;;
    if negb (length names =? 0)%nat then
      user_input <~ input (confirm_prompt folder) ;;
      let user_ok := existsb (String.eqb user_input) affirmative in
      if user_ok then
        shutil_rmtree folder ;;
        log "execution" "info" "Deleted weights checkpoint folder!" []
      else
        log "execution" "info" "Aborting after user command!" [] ;;
        sys_exit 0
    else ret tt
  else ret tt.

Definition set_input_shape (model_params : loc) : M unit :=
  width <~ lookup_key model_params "input_width" ;;
  height <~ lookup_key model_params "input_height" ;;
  channels <~ lookup_key model_params "input_channels" ;;
  store_input_shape (VList [width; height; channels]).

(** [model_params.update(self.__dataset_params)] *)
Definition merge_dataset_params (model_params : loc) : M unit :=
  me <~ this ;;
  update model_params (dataset_params me).

(** [if model_params['train'] and not model_params['restore_weights']:
       self.__check_no_weights_in_run_folder(weights_path)] *)
Definition check_if_fresh_training (model_params : loc) (weights_path : string)
  : M unit :=
  train_flag <~ lookup_key model_params "train" ;;
  fresh <~ (if truthy train_flag then
              restore_flag <~ lookup_key model_params "restore_weights" ;;
              ret (negb (truthy restore_flag))
            else ret false) ;;
  if fresh : bool then check_no_weights_in_run_folder weights_path else ret tt.

(** The stages are written in two parts: what they do up to the check of
    the weights folder, and the statements that follow it. *)
Definition preprocessing_body (model_params : loc) : M pyval :=
  log "execution" "info" "Preprocessing the data..." [] ;;
  dataset_avg_size <~ external (NewPreprocessingDataset model_params) ;;
  vocabulary <~ external (PreprocessingGenerate dataset_avg_size) ;;
  set_dict_cat vocabulary ;;
  ret dataset_avg_size.

Definition run_preprocessing (model_params : loc) (weights_path : string)
  : M pyval :=
  merge_dataset_params model_params ;;
  check_if_fresh_training model_params weights_path ;;
  preprocessing_body model_params.

Definition int_of_key (model_params : loc) (key : string) : M Z :=
  v <~ lookup_key model_params key ;; lift (py_int v).

Definition run_hourglass_detection (model_params : loc) (dataset_avg_size : pyval)
    (weights_path : string) (run_id : pyval) : M unit :=
  log "execution" "info" "Initializing Hourglass model..." [] ;;
  merge_dataset_params model_params ;;
  avg_sizes <~ external (GetDatasetLabels dataset_avg_size) ;;
  train_list <~ external (AnnotateSplitRecommend dataset_avg_size avg_sizes) ;;
  input_width <~ int_of_key model_params "input_width" ;;
  input_height <~ int_of_key model_params "input_height" ;;
  output_width <~ int_of_key model_params "output_width" ;;
  output_height <~ int_of_key model_params "output_height" ;;
  model <~ external (NewHourglassNetwork run_id model_params 6 1 256
                       (input_width, input_height) (output_width, output_height)) ;;
  log "execution" "info" "Hourglass model successfully initialized!" [] ;;
  me <~ this ;;
  external (HourglassTrain model model_params train_list (test_list me) weights_path).

(** [try: decay = float(model_params['decay'])
     except ValueError: decay = None] *)
Definition read_decay (model_params : loc) : M (option pyfloat) :=
  except_ValueError
    (v <~ lookup_key model_params "decay" ;;
     f <~ lift (py_float v) ;;
     ret (Some f))
    (ret None).

(** [decay if decay else 0.0] *)
Definition decay_or_zero (decay : option pyfloat) : pyfloat :=
  match decay with
  | Some f => if float_is_zero f then FFinite 0 else f
  | None => FFinite 0
  end.

Fixpoint map_m {A B} (f : A -> M B) (l : list A) : M (list B) :=
  match l with
  | [] => ret []
  | a :: r => b <~ f a ;; bs <~ map_m f r ;; ret (b :: bs)
  end.

(** [int(size // model_params['batch_size']) + 1] *)
Definition steps_arg (model_params : loc) (size : pyval) : M pyval :=
  batch_size <~ lookup_key model_params "batch_size" ;;
  q <~ lift (floordiv size batch_size) ;;
  n <~ lift (py_int q) ;;
  ret (VInt (n + 1)).

(** [int(size // model_params['batch_size'] + 1)] *)
Definition evaluation_steps_arg (model_params : loc) (size : pyval) : M pyval :=
  batch_size <~ lookup_key model_params "batch_size" ;;
  q <~ lift (floordiv size batch_size) ;;
  q1 <~ lift (add_int q 1) ;;
  n <~ lift (py_int q1) ;;
  ret (VInt n).

(** [int(size // batch_size) + 1], [batch_size] being a local integer *)
Definition steps_with (size : pyval) (batch_size : Z) : M pyval :=
  q <~ lift (floordiv size (VInt batch_size)) ;;
  n <~ lift (py_int q) ;;
  ret (VInt (n + 1)).

Definition metrics_message : string :=
  "Evaluation metrics:" +:+ newline
  +:+ "all_loss     : {}" +:+ newline
  +:+ "size_loss    : {}" +:+ newline
  +:+ "heatmap_loss : {}" +:+ newline
  +:+ "offset_loss  : {}".

Definition detection_body (model_params : loc) (dataset_avg_size : pyval)
    (weights_path : string) : M (pyval * pyval) :=
  me <~ this ;;
  model <~ call_build_model [("input_shape", input_shape me);
                             ("mode", VStr "detection");
                             ("n_category", VInt 1)] ;;
  decay <~ read_decay model_params ;;
  learning_rate <~ lookup_key model_params "learning_rate" ;;
  optimizer <~ external (Adam learning_rate (decay_or_zero decay)) ;;
  external (Compile model optimizer "all_loss"
                    ["size_loss"; "heatmap_loss"; "offset_loss"]) ;;
  restore_flag <~ lookup_key model_params "restore_weights" ;;
  (if truthy restore_flag then
     init_epoch <~ lookup_key model_params "initial_epoch" ;;
     call_restore_weights [("model", model); ("init_epoch", init_epoch);
                           ("weights_folder_path", VStr weights_path)]
   else ret tt) ;;
  avg_sizes <~ external (GetDatasetLabels dataset_avg_size) ;;
  train_list <~ external (AnnotateSplitRecommend dataset_avg_size avg_sizes) ;;
  dataset_detection <~ external (NewDetectionDataset model_params) ;;
  predict_flag <~ lookup_key model_params "predict_on_test" ;;
  let tests := if truthy predict_flag then test_list me else VNone in
  unpack xy_train, xy_val <~ external (DatasetGenerate dataset_detection train_list tests) ;;
  unpack detection_ts, detection_ts_size <~ external (GetTrainingSet dataset_detection) ;;
  unpack detection_vs, detection_vs_size <~ external (GetValidationSet dataset_detection) ;;
  unpack detection_ps, detection_ps_size <~ external (GetTestSet dataset_detection) ;;
  train_flag <~ lookup_key model_params "train" ;;
  (if truthy train_flag then
     log "execution" "info"
         "Starting the training procedure for the object detection model..." [] ;;
     batch_size <~ lookup_key model_params "batch_size" ;;
     callbacks <~ call_setup_callbacks [("weights_log_path", VStr weights_path);
                                        ("batch_size", batch_size)] ;;
     init_epoch <~ lookup_key model_params "initial_epoch" ;;
     epochs <~ lookup_key model_params "epochs" ;;
     training_steps <~ steps_arg model_params detection_ts_size ;;
     validation_steps <~ steps_arg model_params detection_vs_size ;;
     call_train [("model", model); ("init_epoch", init_epoch); ("epochs", epochs);
                 ("training_set", detection_ts); ("validation_set", detection_vs);
                 ("training_steps", training_steps);
                 ("validation_steps", validation_steps);
                 ("callbacks", callbacks)] ;;
     evaluation_steps <~ evaluation_steps_arg model_params detection_vs_size ;;
     metrics <~ call_evaluate [("model", model); ("evaluation_set", detection_vs);
                               ("evaluation_steps", evaluation_steps)] ;;
     m0 <~ lift (getitem metrics 0) ;;
     m1 <~ lift (getitem metrics 1) ;;
     m2 <~ lift (getitem metrics 2) ;;
     m3 <~ lift (getitem metrics 3) ;;
     log "test" "info" metrics_message [m0; m1; m2; m3]
   else ret tt) ;;
  show_flag <~ lookup_key model_params "show_prediction_examples" ;;
  (if truthy show_flag then
     first_ten <~ lift (slice_to xy_val 10) ;;
     annotations <~ lift (elements_of first_ten) ;;
     test_path_list <~ map_m (fun ann => lift (getitem ann 0)) annotations ;;
     shape_now <~ this ;;
     mini_test <~ external (MiniTestDataset test_path_list (input_shape shape_now)) ;;
     detected_predictions <~ predict model mini_test (VInt 1) ;;
     annotation_list <~ lift (slice_to xy_val 10) ;;
     external (GetBBoxes detected_predictions "train" annotation_list VNone true) ;;
     ret tt
   else ret tt) ;;
  predict_flag' <~ lookup_key model_params "predict_on_test" ;;
  predicted_test_bboxes <~
    (if truthy predict_flag' then
       log "execution" "info" "Predicting test bounding boxes (takes time)..." [] ;;
       test_predictions <~ call_predict [("model", model); ("dataset", detection_ps)] ;;
       log "execution" "info" "Completed." [] ;;
       log "execution" "info" "Converting test predictions into bounding boxes..." [] ;;
       boxes <~ external (GetBBoxes test_predictions "test" VNone (test_list me) false) ;;
       log "execution" "info" "Completed." [] ;;
       ret boxes
     else ret VNone) ;;
  ret (train_list, predicted_test_bboxes).

Definition run_detection (model_params : loc) (dataset_avg_size : pyval)
    (weights_path : string) : M (pyval * pyval) :=
  merge_dataset_params model_params ;;
  set_input_shape model_params ;;
  check_if_fresh_training model_params weights_path ;;
  detection_body model_params dataset_avg_size weights_path.

Definition crop_folder (name : string) : M string :=
  here <~ os_getcwd ;;
  ret (Path.join (Path.join here "datasets") name).

Definition classification_body (model_params : loc)
    (train_list bbox_predictions : pyval) (weights_path : string) : M pyval :=
  me <~ this ;;
  model <~ call_build_model [("input_shape", input_shape me);
                             ("mode", VStr "classification");
                             ("n_category", VInt (Z.of_nat (size (dict_cat me))))] ;;
  restore_flag <~ lookup_key model_params "restore_weights" ;;
  (if truthy restore_flag then
     init_epoch <~ lookup_key model_params "initial_epoch" ;;
     call_restore_weights [("model", model); ("init_epoch", init_epoch);
                           ("weights_folder_path", VStr weights_path)]
   else ret tt) ;;
  decay <~ read_decay model_params ;;
  learning_rate <~ lookup_key model_params "learning_rate" ;;
  optimizer <~ external (Adam learning_rate (decay_or_zero decay)) ;;
  external (Compile model optimizer "sparse_categorical_crossentropy"
                    ["sparse_categorical_accuracy"]) ;;
  crop_char_path_train <~ crop_folder "char_cropped_train" ;;
  crop_char_path_test <~ crop_folder "char_cropped_test" ;;
  regenerate_train <~ lookup_key model_params "regenerate_crops_train" ;;
  train_crops <~
    (if truthy regenerate_train
     then external (RegenerateCropsTrain train_list crop_char_path_train)
     else external (LoadCropCharacters crop_char_path_train "train")) ;;
  predict_flag <~ lookup_key model_params "predict_on_test" ;;
  test_crops <~
    (if truthy predict_flag then
       regenerate_test <~ lookup_key model_params "regenerate_crops_test" ;;
       if truthy regenerate_test
       then external (RegenerateCropsTest bbox_predictions crop_char_path_test)
       else external (LoadCropCharacters crop_char_path_test "test")
     else ret VNone) ;;
  batch_size <~ int_of_key model_params "batch_size" ;;
  dataset_classification <~ external (NewClassificationDataset model_params) ;;
  external (DatasetGenerate dataset_classification train_crops test_crops) ;;
  unpack classification_ts, classification_ts_size <~
    external (GetTrainingSet dataset_classification) ;;
  unpack classification_vs, classification_vs_size <~
    external (GetValidationSet dataset_classification) ;;
  unpack classification_ps, classification_ps_size <~
    external (GetTestSet dataset_classification) ;;
  train_flag <~ lookup_key model_params "train" ;;
  (if truthy train_flag then
     log "execution" "info"
         "Starting the training procedure for the classification model..." [] ;;
     callbacks <~ call_setup_callbacks [("weights_log_path", VStr weights_path);
                                        ("batch_size", VInt batch_size)] ;;
     init_epoch <~ lookup_key model_params "initial_epoch" ;;
     epochs <~ lookup_key model_params "epochs" ;;
     training_steps <~ steps_with classification_ts_size batch_size ;;
     validation_steps <~ steps_with classification_vs_size batch_size ;;
     call_train [("model", model); ("init_epoch", init_epoch); ("epochs", epochs);
                 ("training_set", classification_ts);
                 ("validation_set", classification_vs);
                 ("training_steps", training_steps);
                 ("validation_steps", validation_steps);
                 ("callbacks", callbacks)]
   else ret tt) ;;
  predict_flag' <~ lookup_key model_params "predict_on_test" ;;
  if truthy predict_flag' then
    log "execution" "info"
        "Starting the predict procedure of char class (takes much time)..." [] ;;
    predictions <~ call_predict [("model", model); ("dataset", classification_ps)] ;;
    log "execution" "info" "Prediction completed." [] ;;
    ret predictions
  else ret VNone.

Definition run_classification (model_params : loc)
    (train_list bbox_predictions : pyval) (weights_path : string) : M pyval :=
  merge_dataset_params model_params ;;
  set_input_shape model_params ;;
  check_if_fresh_training model_params weights_path ;;
  classification_body model_params train_list bbox_predictions weights_path.

End Program.


(** ** A concrete setting for examples *)

Module Sample.

(** Collaborators that always succeed, with sets of 20 training and 20
    validation samples and four evaluation metrics. *)
Definition steady (R : Type) (w : world) (c : call R) : outcome R :=
  match c in call R return outcome R with
  | Repr _ => Ret "<object>"
  | GenerateModel _ _ _ => Ret (VObj 1)
  | ModelCheckpoint _ _ _ _ _ => Ret (VObj 2)
  | TensorBoard _ _ _ => Ret (VObj 3)
  | LearningRateScheduler _ => Ret (VObj 4)
  | LoadWeights _ _ => Ret tt
  | Summary _ => Ret tt
  | GetTrainingSet _ => Ret (VObj 5, VInt 20)
  | GetValidationSet _ => Ret (VObj 6, VInt 20)
  | GetTestSet _ => Ret (VObj 7, VInt 3)
  | GetXYTraining _ => Ret (VList [], VList [])
  | ImageDataGenerator _ _ _ _ _ => Ret (VObj 8)
  | FlowFromDataframe _ _ _ _ _ => Ret (VObj 9)
  | Fit _ _ _ _ _ _ _ _ _ => Ret tt
  | Evaluate _ _ _ =>
      Ret (VList [VFloat (FFinite 4); VFloat (FFinite 1); VFloat (FFinite 2);
                  VFloat (FFinite 1)])
  | Predict _ _ _ => Ret (VObj 10)
  | Adam _ _ => Ret (VObj 11)
  | Compile _ _ _ _ => Ret tt
  | NewPreprocessingDataset _ => Ret (VObj 12)
  | PreprocessingGenerate _ => Ret ({[ "a" := 0; "b" := 1; "c" := 2 ]} : gmap string Z)
  | GetDatasetLabels _ => Ret (VList [])
  | AnnotateSplitRecommend _ _ => Ret (VList [VList [VStr "img0.jpg"]])
  | NewHourglassNetwork _ _ _ _ _ _ _ => Ret (VObj 13)
  | HourglassTrain _ _ _ _ _ => Ret tt
  | NewDetectionDataset _ => Ret (VObj 14)
  | NewClassificationDataset _ => Ret (VObj 15)
  | DatasetGenerate _ _ _ => Ret (VList [], VList [VList [VStr "img0.jpg"]])
  | MiniTestDataset _ _ => Ret (VObj 16)
  | GetBBoxes _ _ _ _ _ => Ret (VObj 17)
  | RegenerateCropsTrain _ _ => Ret (VList [])
  | RegenerateCropsTest _ _ => Ret (VList [])
  | LoadCropCharacters _ _ => Ret (VList [])
  end.

Definition base_params : gmap string pyval :=
  {[ "sample_submission" := VStr "sample_submission.csv";
     "batch_size" := VInt 4 ]}.

Definition stage_params (train restore predict : bool) : gmap string pyval :=
  list_to_map
    [("input_width", VInt 512); ("input_height", VInt 512);
     ("input_channels", VInt 3);
     ("output_width", VInt 128); ("output_height", VInt 128);
     ("train", VBool train); ("restore_weights", VBool restore);
     ("initial_epoch", VInt 5); ("epochs", VInt 1);
     ("batch_size", VInt 8); ("learning_rate", VFloat (FFinite (1 # 1000)));
     ("decay", VStr "0.01");
     ("predict_on_test", VBool predict);
     ("regenerate_crops_train", VBool false);
     ("regenerate_crops_test", VBool false);
     ("show_prediction_examples", VBool false)].

Definition disk : node :=
  Dir [("runs",
        Dir [("w", Dir [("tensorboard", Dir []);
                        ("weights.05-0.23.hdf5", File);
                        ("weights.06-0.21.hdf5", File)]);
             ("empty", Dir [])])].

(** The pipeline object keeps its dataset parameters at reference 1; the
    caller's stage parameters are at reference 2. *)
Definition start (params : gmap string pyval) (lines : list string) : world :=
  {| heap := <[1%positive := base_params]> {[ 2%positive := params ]};
     fs := disk;
     cwd := "/";
     stdin := lines;
     trace := [];
     self := {| dataset_params := 1%positive;
                input_shape := VList [VNone; VNone; VNone];
                dict_cat := ∅;
                test_list := VList [VStr "t0.jpg"; VStr "t1.jpg"] |} |}.

End Sample.

(** ** A small program logic

    [spec] says what a computation may leave in the trace and which
    outcomes it can have, while the store, the fields of the pipeline
    object that hold references, and (in the absence of a [Removed] event)
    the file system stay as they are. *)

Section Logic.

Variable ask : forall R : Type, world -> call R -> outcome R.

(** What stays fixed during a stage once the configuration is merged. *)
Record setting := {
  s_heap : gmap loc (gmap string pyval);
  s_dataset_params : loc;
  s_dict_cat : option (gmap string Z);
  s_test_list : pyval;
  s_cwd : string;
}.

(** The vocabulary is part of the setting only where it is tracked: the
    preprocessing stage replaces it. *)
Definition keeps_vocabulary (s : setting) (p : pipeline) : Prop :=
  match s_dict_cat s with
  | Some d => dict_cat p = d
  | None => True
  end.

Definition fits (s : setting) (w : world) : Prop :=
  heap w = s_heap s /\ dataset_params (self w) = s_dataset_params s /\
  keeps_vocabulary s (self w) /\ test_list (self w) = s_test_list s /\
  cwd w = s_cwd s.

Definition setting_of (tracked : bool) (w : world) : setting :=
  {| s_heap := heap w; s_dataset_params := dataset_params (self w);
     s_dict_cat := if tracked then Some (dict_cat (self w)) else None;
     s_test_list := test_list (self w);
     s_cwd := cwd w |}.

Definition config (s : setting) (d : loc) : gmap string pyval :=
  default ∅ (s_heap s !! d).

Definition is_removed (e : event) : bool :=
  match e with Removed _ => true | _ => false end.

Definition grows (P : event -> bool) (w w' : world) : Prop :=
  exists evs, trace w' = trace w ++ evs /\ forallb P evs = true /\
              (existsb is_removed evs = false -> fs w' = fs w).

Definition spec {A} (s : setting) (P : event -> bool) (m : M A)
    (Q : outcome A -> Prop) : Prop :=
  forall w, fits s w ->
    fits s (snd (m w)) /\ grows P w (snd (m w)) /\ Q (fst (m w)).

Lemma fits_setting_of tracked w : fits (setting_of tracked w) w.
Proof. unfold fits, keeps_vocabulary. destruct tracked; by repeat split. Qed.

Lemma grows_refl P w : grows P w w.
Proof. exists []. rewrite app_nil_r. auto. Qed.

Lemma grows_trans P w1 w2 w3 : grows P w1 w2 -> grows P w2 w3 -> grows P w1 w3.
Proof.
  intros (e1 & H1 & F1 & R1) (e2 & H2 & F2 & R2).
  exists (e1 ++ e2). rewrite H2, H1, app_assoc. split; [done|]. split.
  - rewrite forallb_app, F1, F2. done.
  - rewrite existsb_app. intros [Ha Hb]%orb_false_elim.
    rewrite R2, R1; auto.
Qed.

Lemma grows_record P e w :
  P e = true -> is_removed e = false -> grows P w (record e w).
Proof.
  intros HP HR. exists [e]. cbn. rewrite HP, HR. auto.
Qed.

Lemma spec_weaken {A} s P (m : M A) (Q Q' : outcome A -> Prop) :
  spec s P m Q -> (forall r, Q r -> Q' r) -> spec s P m Q'.
Proof. intros H HQ w Hw. destruct (H w Hw) as (? & ? & ?). auto. Qed.

Lemma spec_bind {A B} s P (m : M A) (k : A -> M B) Q1 Q :
  spec s P m Q1 ->
  (forall a, Q1 (Ret a) -> spec s P (k a) Q) ->
  (forall e, Q1 (Raise e) -> Q (Raise e)) ->
  spec s P (bind m k) Q.
Proof.
  intros Hm Hk He w Hw. unfold bind.
  destruct (Hm w Hw) as (F1 & G1 & HQ1).
  destruct (m w) as [[a | e] w1]; cbn in *.
  - destruct (Hk a HQ1 w1 F1) as (F2 & G2 & HQ2).
    split; [done|]. split; [|done]. eapply grows_trans; eauto.
  - auto.
Qed.

Lemma spec_ret {A} s P (a : A) (Q : outcome A -> Prop) :
  Q (Ret a) -> spec s P (ret a) Q.
Proof. intros HQ w Hw. cbn. auto using grows_refl. Qed.

Lemma spec_raise {A} s P e (Q : outcome A -> Prop) :
  Q (Raise e) -> spec s P (raise e) Q.
Proof. intros HQ w Hw. cbn. auto using grows_refl. Qed.

Lemma spec_lift {A} s P (o : outcome A) (Q : outcome A -> Prop) :
  Q o -> spec s P (lift o) Q.
Proof. intros HQ w Hw. cbn. auto using grows_refl. Qed.

Lemma spec_lift_eq {A} s P (o : outcome A) :
  spec s P (lift o) (fun r => r = o).
Proof. by apply spec_lift. Qed.

Lemma spec_emit s P e (Q : outcome unit -> Prop) :
  P e = true -> is_removed e = false -> Q (Ret tt) -> spec s P (emit e) Q.
Proof.
  intros HP HR HQ w Hw. cbn. split; [exact Hw|]. split; [|done].
  by apply grows_record.
Qed.

Lemma spec_log s P logger level msg args (Q : outcome unit -> Prop) :
  P (Logged logger level msg args) = true -> Q (Ret tt) ->
  spec s P (log logger level msg args) Q.
Proof. intros. by apply spec_emit. Qed.

Lemma spec_external {R} s P (c : call R) :
  P (Called c) = true -> spec s P (external ask c) (fun _ => True).
Proof.
  intros HP w Hw. cbn. split; [exact Hw|]. split; [|done].
  by apply grows_record.
Qed.

Lemma spec_py_str s P v :
  P (Called (Repr v)) = true -> spec s P (py_str ask v) (fun _ => True).
Proof.
  intros HP. destruct v; cbn; try (by apply spec_ret); by apply spec_external.
Qed.

Lemma spec_lookup_key s P d key :
  spec s P (lookup_key d key)
       (fun r => r = match config s d !! key with
                     | Some v => Ret v
                     | None => Raise (KeyError key)
                     end).
Proof.
  intros w Hw. unfold lookup_key, dict_at, config.
  destruct Hw as (Hh & Hrest). rewrite Hh.
  destruct (default ∅ (s_heap s !! d) !! key); cbn;
    (split; [by split|]); split; auto using grows_refl.
Qed.

Lemma spec_this s P :
  spec s P this
       (fun r => exists p, r = Ret p /\ keeps_vocabulary s p /\
                           test_list p = s_test_list s /\
                           dataset_params p = s_dataset_params s).
Proof.
  intros w Hw. cbn. split; [exact Hw|]. split; [apply grows_refl|].
  destruct Hw as (? & ? & ? & ? & ?). eauto 10.
Qed.

Lemma spec_store_input_shape s P v :
  spec s P (store_input_shape v) (fun r => r = Ret tt).
Proof.
  intros w Hw. cbn. split; [|split; [|done]].
  - destruct Hw as (? & ? & ? & ? & ?). by repeat split.
  - exists []. cbn. rewrite app_nil_r. auto.
Qed.

Lemma spec_set_dict_cat s P d :
  s_dict_cat s = None -> spec s P (set_dict_cat d) (fun r => r = Ret tt).
Proof.
  intros Hs w Hw. cbn. split; [|split; [|done]].
  - destruct Hw as (? & ? & ? & ? & ?). unfold fits, keeps_vocabulary.
    rewrite Hs. by repeat split.
  - exists []. cbn. rewrite app_nil_r. auto.
Qed.

Lemma spec_input s P prompt :
  (forall a, P (Prompted prompt a) = true) ->
  spec s P (input prompt) (fun _ => True).
Proof.
  intros HP w Hw. unfold input. destruct (stdin w); cbn.
  - split; [exact Hw|]. split; [|done]. by apply grows_record.
  - split; [exact Hw|]. split; [|done].
    apply (grows_record P (Prompted prompt (Some s0)) (with_stdin l w)); auto.
Qed.

Lemma spec_reads {A} s P (f : world -> outcome A) :
  spec s P (fun w => (f w, w)) (fun _ => True).
Proof. intros w Hw. cbn. auto using grows_refl. Qed.

Lemma spec_rmtree s P folder :
  P (Removed folder) = true -> spec s P (shutil_rmtree folder) (fun _ => True).
Proof.
  intros HP w Hw. unfold shutil_rmtree. destruct (rmtree (fs w) folder) as [r t].
  cbn. split; [exact Hw|]. split; [|done].
  exists [Removed folder]. cbn. rewrite HP. split; [done|]. split; [done|].
  discriminate.
Qed.

Lemma spec_except_ValueError {A} s P (body handler : M A) :
  spec s P body (fun _ => True) -> spec s P handler (fun _ => True) ->
  spec s P (except_ValueError body handler) (fun _ => True).
Proof.
  intros Hb Hh w Hw. unfold except_ValueError.
  destruct (Hb w Hw) as (F1 & G1 & _).
  destruct (body w) as [[a | e] w1]; cbn in *; [done|].
  destruct e; try done.
  destruct (Hh w1 F1) as (F2 & G2 & _).
  split; [done|]. split; [|done]. eapply grows_trans; eauto.
Qed.

Lemma spec_map_m {A B} s P (f : A -> M B) (l : list A) :
  (forall a, spec s P (f a) (fun _ => True)) ->
  spec s P (map_m f l) (fun _ => True).
Proof.
  intros Hf. induction l as [| a l IH]; cbn.
  - by apply spec_ret.
  - eapply spec_bind; [apply Hf | | done]. intros b _.
    eapply spec_bind; [apply IH | | done]. intros bs _.
    by apply spec_ret.
Qed.

(** Collaborators that never raise. *)
Definition reliable : Prop :=
  forall (R : Type) (w : world) (c : call R), returned (ask R w c) = true.

Lemma spec_external_total {R} s P (c : call R) :
  reliable -> P (Called c) = true ->
  spec s P (external ask c) (fun r => returned r = true).
Proof.
  intros Hr HP w Hw. cbn. split; [exact Hw|]. split; [|apply Hr].
  by apply grows_record.
Qed.

Lemma spec_py_str_total s P v :
  reliable -> P (Called (Repr v)) = true ->
  spec s P (py_str ask v) (fun r => returned r = true).
Proof.
  intros Hr HP. destruct v; cbn; try (by apply spec_ret);
    by apply spec_external_total.
Qed.

Lemma spec_getcwd s P : spec s P os_getcwd (fun r => returned r = true).
Proof. intros w Hw. cbn. auto using grows_refl. Qed.

(** [float] of a text or a number never raises anything but
    [ValueError], which [read_decay] handles. *)
Definition floatable (v : pyval) : bool :=
  match v with
  | VStr _ | VInt _ | VBool _ | VFloat _ => true
  | _ => false
  end.

Lemma spec_read_decay_total s P d v :
  config s d !! "decay" = Some v -> floatable v = true ->
  spec s P (read_decay d) (fun r => returned r = true).
Proof.
  intros Hk Hv w Hw. unfold read_decay, except_ValueError, bind, lookup_key,
    dict_at, lift, ret.
  pose proof Hw as (Hh & _). unfold config in Hk. rewrite Hh, Hk.
  destruct v; try discriminate; cbn; try (by auto using grows_refl).
  destruct (parse_float s0); cbn; auto using grows_refl.
Qed.

Lemma spec_bind_keywords_ret {B} s P sg kw f (k : (string -> pyval) -> M B) Q :
  bind_keywords sg kw = Ret f -> spec s P (k f) Q ->
  spec s P (bind (lift (bind_keywords sg kw)) k) Q.
Proof. intros -> H w Hw. exact (H w Hw). Qed.

Lemma spec_bind_keywords_raise {B} s P sg kw e (k : (string -> pyval) -> M B)
    (Q : outcome B -> Prop) :
  bind_keywords sg kw = Raise e -> Q (Raise e) ->
  spec s P (bind (lift (bind_keywords sg kw)) k) Q.
Proof. intros -> H w Hw. cbn. auto using grows_refl. Qed.

Lemma spec_bind_assoc {A B C} s P (m : M A) (k1 : A -> M B) (k2 : B -> M C) Q :
  spec s P (bind m (fun x => bind (k1 x) k2)) Q ->
  spec s P (bind (bind m k1) k2) Q.
Proof.
  intros H w Hw. specialize (H w Hw). unfold bind in *.
  by destruct (m w) as [[a | e] w1].
Qed.

Lemma spec_bind_ret {A B} s P (a : A) (k : A -> M B) Q :
  spec s P (k a) Q -> spec s P (bind (ret a) k) Q.
Proof. intros H w Hw. exact (H w Hw). Qed.

Lemma spec_bind_any {A B} s P (m : M A) (k : A -> M B) (Q : outcome B -> Prop) :
  spec s P m (fun _ => True) ->
  (forall a, spec s P (k a) Q) ->
  (forall e, Q (Raise e)) ->
  spec s P (bind m k) Q.
Proof. intros Hm Hk He. eapply spec_bind; eauto. Qed.

Lemma spec_bind_lift_ret {A B} s P (a : A) (k : A -> M B) Q :
  spec s P (k a) Q -> spec s P (bind (lift (Ret a)) k) Q.
Proof. intros H w Hw. exact (H w Hw). Qed.

Lemma spec_bind_lift_raise {A B} s P e (k : A -> M B) (Q : outcome B -> Prop) :
  Q (Raise e) -> spec s P (bind (lift (Raise e)) k) Q.
Proof. intros H w Hw. cbn. auto using grows_refl. Qed.

Lemma spec_true {A} s P (m : M A) Q :
  spec s P m Q -> spec s P m (fun _ => True).
Proof. intros H. eapply spec_weaken; eauto. Qed.

End Logic.

(** Symbolic execution of a computation against [spec].  [mid] is the
    postcondition taken for a step whose result the rest does not inspect:
    [fun _ => True], or [fun r => returned r = true] when the run is to be
    shown to return. *)

Ltac use_config :=
  repeat match goal with
  | H : config ?s ?d !! ?k = _, E : context [config ?s ?d !! ?k] |- _ =>
      rewrite H in E
  end.

Ltac use_flags :=
  repeat match goal with
  | H : truthy ?v = _ |- context [truthy ?v] => rewrite H
  end;
  cbv beta iota zeta.

Ltac split_lookup E :=
  use_config;
  match type of E with
  | _ = match ?x with _ => _ end => destruct x eqn:?
  | _ => idtac
  end;
  try discriminate E;
  try (injection E as E; subst).

(** An exception where the hypotheses say the step returns. *)
Ltac no_raise E :=
  first
    [ discriminate E
    | match goal with
      | H : returned ?o = true |- _ => rewrite <- E in H; discriminate H
      end ].

Ltac side_condition done_tac :=
  first [ reflexivity | done_tac ].

Ltac spec_leaf lem done_tac :=
  eapply spec_weaken;
  [ lem
  | let r := fresh "r" in
    let E := fresh "E" in
    intros r E; cbv beta in E; use_config;
    try (rewrite E);
    first [ assumption | done_tac ] ].

Ltac spec_head mid done_tac :=
  lazymatch goal with
  | |- spec _ _ (bind (ret _) _) _ => apply spec_bind_ret
  | |- spec _ _ (bind (lookup_key _ _) _) _ =>
      let E := fresh "E" in
      eapply spec_bind;
      [ apply spec_lookup_key
      | intros ? E; cbv beta in E; split_lookup E; use_flags
      | intros ? E; cbv beta in E; use_config;
        first [ discriminate E | done_tac ] ]
  | |- spec _ _ (bind (lift _) _) _ =>
      let E := fresh "E" in
      eapply spec_bind;
      [ apply spec_lift_eq
      | intros ? E; cbv beta in E
      | intros ? E; cbv beta in E; first [ no_raise E | done_tac ] ]
  | |- spec _ _ (bind this _) _ =>
      let E := fresh "E" in
      eapply spec_bind;
      [ apply spec_this
      | intros ? (? & E & ? & ? & ?); injection E as E; subst
      | intros ? (? & E & _); discriminate E ]
  | |- spec _ _ (bind _ _) _ =>
      let H := fresh "Hmid" in
      refine (spec_bind _ _ _ _ mid _ _ _ _);
      [ | intros ? H; clear H | intros ? H; first [ discriminate H | done_tac ] ]
  | |- spec _ _ (ret _) _ => apply spec_ret; done_tac
  | |- spec _ _ (raise _) _ => apply spec_raise; done_tac
  | |- spec _ _ (sys_exit _) _ => apply spec_raise; done_tac
  | |- spec _ _ (lift _) _ => spec_leaf ltac:(apply spec_lift_eq) done_tac
  | |- spec _ _ (lookup_key _ _) _ =>
      spec_leaf ltac:(apply spec_lookup_key) done_tac
  | |- spec _ _ (external _ _) _ =>
      spec_leaf
        ltac:(first [ apply spec_external_total;
                      [ solve [auto] | side_condition done_tac ]
                    | apply spec_external; side_condition done_tac ])
        done_tac
  | |- spec _ _ (py_str _ _) _ =>
      spec_leaf
        ltac:(first [ apply spec_py_str_total;
                      [ solve [auto] | side_condition done_tac ]
                    | apply spec_py_str; side_condition done_tac ])
        done_tac
  | |- spec _ _ (log _ _ _ _) _ =>
      apply spec_log; [ side_condition done_tac | done_tac ]
  | |- spec _ _ (input _) _ =>
      spec_leaf ltac:(apply spec_input; reflexivity) done_tac
  | |- spec _ _ (shutil_rmtree _) _ =>
      spec_leaf ltac:(apply spec_rmtree; reflexivity) done_tac
  | |- spec _ _ (store_input_shape _) _ =>
      spec_leaf ltac:(apply spec_store_input_shape) done_tac
  | |- spec _ _ (set_dict_cat _) _ =>
      spec_leaf ltac:(apply spec_set_dict_cat; reflexivity) done_tac
  | |- spec _ _ (read_decay _) _ =>
      spec_leaf ltac:(eapply spec_read_decay_total; eassumption) done_tac
  | |- spec _ _ (except_ValueError _ _) _ =>
      eapply spec_weaken; [apply spec_except_ValueError | intros; done_tac]
  | |- spec _ _ (map_m _ _) _ =>
      eapply spec_weaken; [apply spec_map_m; intros ? | intros; done_tac]
  | |- spec _ _ (os_path_isdir _) _ =>
      spec_leaf ltac:(apply spec_reads) done_tac
  | |- spec _ _ (os_path_isfile _) _ =>
      spec_leaf ltac:(apply spec_reads) done_tac
  | |- spec _ _ (os_listdir _) _ =>
      spec_leaf ltac:(apply spec_reads) done_tac
  | |- spec _ _ (glob_glob _) _ =>
      spec_leaf ltac:(apply spec_reads) done_tac
  | |- spec _ _ os_getcwd _ =>
      spec_leaf ltac:(apply spec_getcwd) done_tac
  | |- spec _ _ (let _ := _ in _) _ => cbv zeta
  | |- spec _ _ (if ?b then _ else _) _ => destruct b eqn:?
  | |- spec _ _ (match ?x with (_, _) => _ end) _ => destruct x
  end.

(** ** Stages *)

(** The world once [model_params.update(self.__dataset_params)] has run. *)
Definition effective (model_params : loc) (w : world) : gmap string pyval :=
  dict_at (dataset_params (self w)) w ∪ dict_at model_params w.

Definition merged (model_params : loc) (w : world) : world :=
  record (Updated model_params (dataset_params (self w)))
         (with_heap (<[model_params := effective model_params w]> (heap w)) w).

Lemma merge_run model_params w :
  merge_dataset_params model_params w = (Ret tt, merged model_params w).
Proof. reflexivity. Qed.

Lemma config_merged tracked model_params w :
  config (setting_of tracked (merged model_params w)) model_params
  = effective model_params w.
Proof. unfold config. cbn. by rewrite lookup_insert_eq. Qed.

Lemma dict_at_merged model_params w :
  dict_at model_params (merged model_params w) = effective model_params w.
Proof. unfold dict_at. cbn. by rewrite lookup_insert_eq. Qed.

(** One step of unfolding, at the head of the computation only. *)
Ltac head_of t :=
  lazymatch t with
  | ?f _ => head_of f
  | _ => t
  end.

Ltac composite h :=
  lazymatch h with
  | check_if_fresh_training => idtac
  | check_no_weights_in_run_folder => idtac
  | set_input_shape => idtac
  | call_build_model => idtac
  | call_setup_callbacks => idtac
  | call_restore_weights => idtac
  | call_train => idtac
  | call_evaluate => idtac
  | call_predict => idtac
  | @call_with => idtac
  | build_model => idtac
  | setup_callbacks => idtac
  | restore_weights => idtac
  | init_epoch_str => idtac
  | train => idtac
  | evaluate => idtac
  | predict => idtac
  | read_decay => idtac
  | steps_arg => idtac
  | evaluation_steps_arg => idtac
  | steps_with => idtac
  | int_of_key => idtac
  | crop_folder => idtac
  | assert => idtac
  | preprocessing_body => idtac
  | detection_body => idtac
  | classification_body => idtac
  end.

Ltac unfold_step :=
  lazymatch goal with
  | |- spec _ _ (bind ?m _) _ =>
      let h := head_of m in composite h; unfold h at 1
  | |- spec _ _ ?m _ =>
      let h := head_of m in composite h; unfold h at 1
  end.

(** The value bound to each parameter the body of a call mentions. *)
Ltac eval_bound :=
  cbv beta;
  repeat match goal with
  | |- context [bound ?sg ?kw ?n] =>
      let v := eval cbv [bound given optional List.find fst snd String.eqb
                         Ascii.eqb Bool.eqb fmap option_fmap option_map
                         default id sig_build_model sig_setup_callbacks
                         sig_restore_weights sig_train sig_evaluate
                         sig_predict] in (bound sg kw n) in
      change (bound sg kw n) with v
  end.

Ltac bind_call done_tac :=
  lazymatch goal with
  | |- spec _ _ (bind (lift (bind_keywords ?sg ?kw)) _) _ =>
      first
        [ apply spec_bind_keywords_ret with (f := bound sg kw);
          [ reflexivity | eval_bound ]
        | eapply spec_bind_keywords_raise; [ reflexivity | done_tac ] ]
  end.

Ltac spec_run_with mid done_tac :=
  repeat first
    [ bind_call done_tac
    | spec_head mid done_tac
    | unfold_step ].

Ltac spec_run done_tac :=
  spec_run_with uconstr:(fun _ => True) done_tac.

(** Path by path: nested sequences are flattened and a branch is decided
    before what follows it is run, so that an exception ends the path. *)
Ltac elementary m :=
  lazymatch m with
  | ret _ => idtac
  | lookup_key _ _ => idtac
  | lift _ => idtac
  | this => idtac
  | external _ _ => idtac
  | py_str _ _ => idtac
  | log _ _ _ _ => idtac
  | input _ => idtac
  | shutil_rmtree _ => idtac
  | store_input_shape _ => idtac
  | set_dict_cat _ => idtac
  | read_decay _ => idtac
  | except_ValueError _ _ => idtac
  | map_m _ _ => idtac
  | os_path_isdir _ => idtac
  | os_path_isfile _ => idtac
  | os_listdir _ => idtac
  | glob_glob _ => idtac
  | os_getcwd => idtac
  | raise _ => idtac
  | sys_exit _ => idtac
  end.

Ltac spec_paths done_tac :=
  repeat first
    [ bind_call done_tac
    | lazymatch goal with
      | |- spec _ _ (bind (bind _ _) _) _ => apply spec_bind_assoc
      | |- spec _ _ (bind (raise _) _) _ =>
          refine (spec_bind _ _ _ _ (fun r => returned r = false) _ _ _ _);
          [ by apply spec_raise | intros ? [=] | intros; done_tac ]
      | |- spec _ _ (bind (sys_exit _) _) _ =>
          refine (spec_bind _ _ _ _ (fun r => returned r = false) _ _ _ _);
          [ by apply spec_raise | intros ? [=] | intros; done_tac ]
      | |- spec _ _ (bind (if ?b then _ else _) _) _ => destruct b eqn:?
      | |- spec _ _ (bind (match ?x with (_, _) => _ end) _) _ => destruct x
      | |- spec _ _ (bind (let _ := _ in _) _) _ => cbv zeta
      | |- spec _ _ (bind ?m _) _ =>
          elementary m; spec_head uconstr:(fun _ => True) done_tac
      | |- spec _ _ ?m _ =>
          lazymatch m with
          | bind _ _ => fail
          | _ => spec_head uconstr:(fun _ => True) done_tac
          end
      end
    | unfold_step ].

Ltac spec_run_total done_tac :=
  spec_run_with uconstr:(fun r => returned r = true) done_tac.

Definition is_int (v : pyval) (z : Z) : bool :=
  match v with VInt x => x =? z | _ => false end.

Definition is_text (v : pyval) (s : string) : bool :=
  match v with VStr x => String.eqb x s | _ => false end.

Definition builds_as (mode : string) (n : Z) (e : event) : bool :=
  match e with
  | Called c =>
      match c with
      | GenerateModel _ m k => is_text m mode && is_int k n
      | _ => true
      end
  | _ => true
  end.

(** What a stage leaves behind: the outcome satisfies [Q]; the store is
    the merged one; the trace has grown by the merge and then by events
    that satisfy [P]; without a [Removed] event the file system is
    untouched. *)
Definition stage_post {A} (P : event -> bool) (Q : outcome A -> Prop)
    (m : M A) (model_params : loc) (w : world) : Prop :=
  let r := m w in
  Q (fst r) /\
  heap (snd r) = <[model_params := effective model_params w]> (heap w) /\
  exists evs,
    trace (snd r)
    = trace w ++ Updated model_params (dataset_params (self w)) :: evs /\
    forallb P evs = true /\
    (existsb is_removed evs = false -> fs (snd r) = fs w).

Lemma stage_intro {A} tracked P (Q : outcome A -> Prop) (body : M A)
    model_params w :
  spec (setting_of tracked (merged model_params w)) P body Q ->
  stage_post P Q (bind (merge_dataset_params model_params) (fun _ => body))
             model_params w.
Proof.
  intros H. unfold stage_post, bind. rewrite merge_run.
  destruct (H (merged model_params w) (fits_setting_of _ _))
    as ((Hh & _) & (evs & Ht & HP & Hf) & HQ).
  repeat split; try done.
  exists evs. rewrite Ht. cbn. rewrite <- app_assoc. done.
Qed.

(** * Properties *)

(** ** Evaluation *)

(** C7: [evaluate] called with steps equal to 0 logs a warning, makes no
    call into the framework and returns [None]; with any other steps value
    ([None] included) it returns what the framework's evaluation returns. *)
Theorem C7_evaluate_zero_steps ask (model evaluation_set steps : pyval)
    (w : world) :
  let r := evaluate ask model evaluation_set steps w in
  let started := record (Logged "training" "info" "Evaluating the model..." []) w in
  (eq_int steps 0 = true ->
   fst r = Ret VNone /\
   snd r = record (Logged "training" "warn"
                          "Skipping evaluation since provided set is empty" [])
                  started) /\
  (eq_int steps 0 = false ->
   fst r = ask pyval started (Evaluate model evaluation_set steps) /\
   snd r = record (Called (Evaluate model evaluation_set steps)) started).
Proof.
  cbn zeta. unfold evaluate, bind, log, emit, external, ret.
  split; intros H.
  - assert (Hn : is_none steps = false) by (by destruct steps).
    rewrite Hn, H. by cbn.
  - rewrite H, andb_false_r. by cbn.
Qed.

Lemma C7_evaluate_zero_steps_witness :
  fst (evaluate Sample.steady (VObj 1) (VObj 6) (VInt 0)
                (Sample.start (Sample.stage_params true true false) []))
  = Ret VNone /\
  fst (evaluate Sample.steady (VObj 1) (VObj 6) (VInt 3)
                (Sample.start (Sample.stage_params true true false) []))
  = Ret (VList [VFloat (FFinite 4); VFloat (FFinite 1); VFloat (FFinite 2);
                VFloat (FFinite 1)]).
Proof.
  split.
  - apply (C7_evaluate_zero_steps Sample.steady (VObj 1) (VObj 6) (VInt 0)).
    reflexivity.
  - destruct (C7_evaluate_zero_steps Sample.steady (VObj 1) (VObj 6) (VInt 3)
                (Sample.start (Sample.stage_params true true false) []))
      as [_ H].
    destruct (H eq_refl) as [-> _]. reflexivity.
Defined.

(** ** Decay *)

Definition without_decay : gmap string pyval :=
  delete "decay" (Sample.stage_params false false false).

(** C3: the decay of the configuration is parsed as a float before the
    model is compiled: ["0.01"] gives 0.01, and a text that is no number
    ([""], ["abc"]) gives 0.0 with no error.  A configuration without the
    key, however, makes [model_params['decay']] raise [KeyError], which
    [except ValueError] does not catch: both stages stop with that error
    before [Adam] and [compile] are reached. *)
Theorem C3_decay_parsing (model_params : loc) (w : world) :
  (dict_at model_params w !! "decay" = Some (VStr "0.01") ->
   exists q, read_decay model_params w = (Ret (Some (FFinite q)), w) /\
             decay_or_zero (Some (FFinite q)) = FFinite q /\
             (q == 1 # 100)%Q) /\
  (forall s, s = "" \/ s = "abc" ->
   dict_at model_params w !! "decay" = Some (VStr s) ->
   read_decay model_params w = (Ret None, w) /\
   decay_or_zero None = FFinite 0) /\
  (dict_at model_params w !! "decay" = None ->
   read_decay model_params w = (Raise (KeyError "decay"), w)) /\
  (let r := run_detection Sample.steady 2%positive (VObj 12) "runs/empty"
                          (Sample.start without_decay []) in
   fst r = Raise (KeyError "decay") /\
   existsb (fun e => match e with
                     | Called c => match c with
                                   | Adam _ _ | Compile _ _ _ _ => true
                                   | _ => false
                                   end
                     | _ => false
                     end) (trace (snd r)) = false) /\
  (let r := run_classification Sample.steady 2%positive (VList []) VNone
                               "runs/empty" (Sample.start without_decay []) in
   fst r = Raise (KeyError "decay")).
Proof.
  unfold read_decay, except_ValueError, bind, lookup_key, lift, ret.
  split; [|split; [|split; [|split]]].
  - intros H. rewrite H. exists (1 # 100)%Q. by vm_compute.
  - intros s Hs H. rewrite H. by destruct Hs as [-> | ->].
  - intros H. by rewrite H.
  - by vm_compute.
  - by vm_compute.
Qed.

Lemma C3_decay_parsing_witness :
  read_decay 2%positive (Sample.start (Sample.stage_params false false false) [])
  = (Ret (Some (FFinite (1 # 100))),
     Sample.start (Sample.stage_params false false false) []) /\
  read_decay 2%positive (Sample.start without_decay [])
  = (Raise (KeyError "decay"), Sample.start without_decay []).
Proof.
  destruct (C3_decay_parsing 2%positive
              (Sample.start (Sample.stage_params false false false) []))
    as ((q & Hq & _) & _); [reflexivity |].
  destruct (C3_decay_parsing 2%positive (Sample.start without_decay []))
    as (_ & _ & Hm & _).
  split; [reflexivity | apply Hm; reflexivity].
Defined.

(** ** Models that are built *)

(** The arguments of a model construction, if the event is one. *)
Definition built (e : event) : option (pyval * pyval * pyval) :=
  match e with
  | Called c =>
      match c with
      | GenerateModel shape mode n => Some (shape, mode, n)
      | _ => None
      end
  | _ => None
  end.

Lemma builds_as_built mode n e shape m k :
  builds_as mode n e = true -> built e = Some (shape, m, k) ->
  m = VStr mode /\ k = VInt n.
Proof.
  destruct e as [| | | | R c]; try discriminate. destruct c; try discriminate.
  cbn. intros [Hm Hk]%andb_prop. intros [= <- <- <-].
  destruct mode0; try discriminate. destruct n_category; try discriminate.
  cbn in *. apply String.eqb_eq in Hm. apply Z.eqb_eq in Hk. by subst.
Qed.

Lemma stage_post_events {A} P Q (m : M A) model_params w :
  stage_post P Q m model_params w ->
  exists evs, trace (snd (m w)) = trace w ++ evs /\
              forall e, e ∈ evs -> e = Updated model_params (dataset_params (self w))
                                   \/ P e = true.
Proof.
  intros (_ & _ & evs & Ht & HP & _).
  exists (Updated model_params (dataset_params (self w)) :: evs).
  split; [done|]. intros e [-> | He]%elem_of_cons; [by left|]. right.
  rewrite forallb_forall in HP. apply HP. by apply list_elem_of_In.
Qed.

Lemma detection_builds ask mp ds wp w :
  stage_post (builds_as "detection" 1) (fun _ => True)
             (run_detection ask mp ds wp) mp w.
Proof.
  unfold run_detection. apply (stage_intro true).
  spec_run ltac:(try done).
Qed.

Lemma classification_builds ask mp tl bb wp w :
  stage_post (builds_as "classification" (Z.of_nat (size (dict_cat (self w)))))
             (fun _ => True) (run_classification ask mp tl bb wp) mp w.
Proof.
  unfold run_classification. apply (stage_intro true).
  spec_run ltac:(try done).
  cbn in H. rewrite H. cbn. apply Z.eqb_refl.
Qed.

Lemma preprocessing_stores_vocabulary ask mp wp w dataset w' :
  run_preprocessing ask mp wp w = (Ret dataset, w') ->
  exists w1, ask _ w1 (PreprocessingGenerate dataset) = Ret (dict_cat (self w')).
Proof.
  unfold run_preprocessing, bind at 1. rewrite merge_run.
  unfold bind at 1.
  destruct (check_if_fresh_training mp wp (merged mp w)) as [[[] | e] w1];
    [| discriminate].
  unfold preprocessing_body, bind, log, emit, external, set_dict_cat, ret.
  match goal with
  | |- context [ask pyval ?w0 ?c] => destruct (ask pyval w0 c) as [ds | e]
  end; [| discriminate].
  match goal with
  | |- context [ask (gmap string Z) ?w0 ?c] =>
      destruct (ask (gmap string Z) w0 c) as [voc | e] eqn:Hvoc
  end; [| discriminate].
  intros [= <- <-]. cbn. eauto.
Qed.

(** ** Prediction switched off *)

Definition is_none_value (v : pyval) : bool :=
  match v with VNone => true | _ => false end.

(** Events allowed in a stage that does not predict on the test set: no
    test crops, no decoding of test boxes, and datasets generated without
    a test list. *)
Definition no_test_work (e : event) : bool :=
  match e with
  | Called c =>
      match c with
      | DatasetGenerate _ _ tests => is_none_value tests
      | GetBBoxes _ mode _ _ _ => negb (String.eqb mode "test")
      | RegenerateCropsTest _ _ => false
      | LoadCropCharacters _ mode => negb (String.eqb mode "test")
      | _ => true
      end
  | _ => true
  end.

Definition is_predict (e : event) : bool :=
  match e with
  | Called c => match c with Predict _ _ _ => true | _ => false end
  | _ => false
  end.

Lemma detection_without_prediction ask mp ds wp w flag :
  effective mp w !! "predict_on_test" = Some flag -> truthy flag = false ->
  stage_post no_test_work
             (fun r => forall tl boxes, r = Ret (tl, boxes) -> boxes = VNone)
             (run_detection ask mp ds wp) mp w.
Proof.
  intros Hk Hf. rewrite <- (config_merged true) in Hk.
  unfold run_detection. apply (stage_intro true).
  spec_run ltac:(try done; try (by intros ? ? [= <- <-])).
Qed.

Lemma classification_without_prediction ask mp tl bb wp w flag :
  effective mp w !! "predict_on_test" = Some flag -> truthy flag = false ->
  stage_post (fun e => no_test_work e && negb (is_predict e))
             (fun r => forall v, r = Ret v -> v = VNone)
             (run_classification ask mp tl bb wp) mp w.
Proof.
  intros Hk Hf. rewrite <- (config_merged true) in Hk.
  unfold run_classification. apply (stage_intro true).
  spec_run ltac:(try done; try (by intros ? [= <-])).
Qed.

(** A key of the configuration whose value passes a test. *)
Definition has (cfg : gmap string pyval) (key : string) (test : pyval -> bool)
  : Prop :=
  exists v, cfg !! key = Some v /\ test v = true.

Definition falsy (v : pyval) : bool := negb (truthy v).
Definition any_value (v : pyval) : bool := true.
Definition integral (v : pyval) : bool := returned (py_int v).

Ltac open_has :=
  repeat match goal with
  | H : has _ _ _ |- _ =>
      let v := fresh "v" in
      let Hk := fresh "Hk" in
      let Hv := fresh "Hv" in
      destruct H as (v & Hk & Hv);
      rewrite <- (config_merged true) in Hk;
      try (apply negb_true_iff in Hv)
  end.

(** A configuration that only asks for the stage to be set up: no
    training, no restoring, no examples, no prediction. *)
Definition idle (cfg : gmap string pyval) : Prop :=
  has cfg "input_width" any_value /\ has cfg "input_height" any_value /\
  has cfg "input_channels" any_value /\ has cfg "learning_rate" any_value /\
  has cfg "decay" floatable /\ has cfg "train" falsy /\
  has cfg "restore_weights" falsy /\ has cfg "predict_on_test" falsy.

Lemma detection_returns ask mp ds wp w :
  reliable ask -> idle (effective mp w) ->
  has (effective mp w) "show_prediction_examples" falsy ->
  stage_post (fun _ => true) (fun r => exists tl, r = Ret (tl, VNone))
             (run_detection ask mp ds wp) mp w.
Proof.
  intros Hr (H1 & H2 & H3 & H4 & H5 & H6 & H7 & H8) H9. open_has.
  unfold run_detection. apply (stage_intro true).
  spec_run_total ltac:(try done; eauto).
Qed.

Lemma classification_returns ask mp tl bb wp w :
  reliable ask -> idle (effective mp w) ->
  has (effective mp w) "regenerate_crops_train" any_value ->
  has (effective mp w) "batch_size" integral ->
  stage_post (fun _ => true) (fun r => r = Ret VNone)
             (run_classification ask mp tl bb wp) mp w.
Proof.
  intros Hr (H1 & H2 & H3 & H4 & H5 & H6 & H7 & H8) H9 H10. open_has.
  unfold integral in *.
  unfold run_classification. apply (stage_intro true).
  spec_run_total ltac:(try done; eauto).
Qed.

(** C5: with [predict_on_test] false in the effective configuration,
    [run_detection] can only return [None] as its second component, and
    [run_classification] never asks for test crops, generates its dataset
    with no test list, predicts nothing and can only return [None].  Both
    do return, with [None], when the configuration is idle and the
    collaborators do not fail. *)
Theorem C5_no_prediction ask (model_params : loc) (weights_path : string)
    (w : world) (flag : pyval) :
  effective model_params w !! "predict_on_test" = Some flag ->
  truthy flag = false ->
  (forall dataset_avg_size,
     let r := run_detection ask model_params dataset_avg_size weights_path w in
     (forall train_list boxes, fst r = Ret (train_list, boxes) -> boxes = VNone) /\
     (exists evs, trace (snd r) = trace w ++ evs /\
                  forall e, e ∈ evs -> no_test_work e = true) /\
     (reliable ask -> idle (effective model_params w) ->
      has (effective model_params w) "show_prediction_examples" falsy ->
      exists train_list, fst r = Ret (train_list, VNone))) /\
  (forall train_list bbox_predictions,
     let r := run_classification ask model_params train_list bbox_predictions
                                 weights_path w in
     (forall v, fst r = Ret v -> v = VNone) /\
     (exists evs, trace (snd r) = trace w ++ evs /\
                  forall e, e ∈ evs -> no_test_work e = true /\ is_predict e = false) /\
     (reliable ask -> idle (effective model_params w) ->
      has (effective model_params w) "regenerate_crops_train" any_value ->
      has (effective model_params w) "batch_size" integral ->
      fst r = Ret VNone)).
Proof.
  intros Hk Hf. split.
  - intros ds r. subst r.
    pose proof (detection_without_prediction ask model_params ds weights_path
                  w flag Hk Hf) as Hpost.
    split; [apply Hpost|]. split.
    + destruct (stage_post_events _ _ _ _ _ Hpost) as (evs & Ht & He).
      exists evs. split; [done|]. intros e Hin.
      by destruct (He e Hin) as [-> | HP].
    + intros Hr Hi Hs.
      apply (detection_returns ask model_params ds weights_path w Hr Hi Hs).
  - intros tl bb r. subst r.
    pose proof (classification_without_prediction ask model_params tl bb
                  weights_path w flag Hk Hf) as Hpost.
    split; [apply Hpost|]. split.
    + destruct (stage_post_events _ _ _ _ _ Hpost) as (evs & Ht & He).
      exists evs. split; [done|]. intros e Hin.
      destruct (He e Hin) as [-> | HP]; [done|].
      apply andb_prop in HP as [? ?%negb_true_iff]. done.
    + intros Hr Hi H1 H2.
      apply (classification_returns ask model_params tl bb weights_path w
               Hr Hi H1 H2).
Qed.

Lemma steady_reliable : reliable Sample.steady.
Proof. intros R w c. by destruct c. Qed.

Lemma sample_has (train restore predict : bool) key test v :
  (Sample.base_params ∪ Sample.stage_params train restore predict) !! key = Some v ->
  test v = true ->
  has (effective 2%positive
                 (Sample.start (Sample.stage_params train restore predict) []))
      key test.
Proof. intros Hk Hv. exists v. split; [exact Hk | exact Hv]. Qed.

Lemma sample_idle :
  idle (effective 2%positive
                  (Sample.start (Sample.stage_params false false false) [])).
Proof.
  repeat split; eapply sample_has; by vm_compute.
Qed.

Lemma C5_no_prediction_witness :
  fst (run_detection Sample.steady 2%positive (VObj 12) "runs/w"
         (Sample.start (Sample.stage_params false false false) []))
  = Ret (VList [VList [VStr "img0.jpg"]], VNone) /\
  fst (run_classification Sample.steady 2%positive (VList []) VNone "runs/w"
         (Sample.start (Sample.stage_params false false false) []))
  = Ret VNone.
Proof.
  destruct (C5_no_prediction Sample.steady 2%positive "runs/w"
              (Sample.start (Sample.stage_params false false false) [])
              (VBool false))
    as [Hd Hc]; [by vm_compute | reflexivity |].
  split.
  - destruct (Hd (VObj 12)) as (Hnone & _ & _).
    destruct (run_detection Sample.steady 2%positive (VObj 12) "runs/w"
                (Sample.start (Sample.stage_params false false false) []))
      as [[[tl boxes] | e] w'] eqn:Hrun; vm_compute in Hrun;
      injection Hrun as <- <-; reflexivity.
  - destruct (Hc (VList []) VNone) as (_ & _ & Hret).
    apply Hret.
    + apply steady_reliable.
    + apply sample_idle.
    + eapply sample_has; by vm_compute.
    + eapply sample_has; by vm_compute.
Defined.

(** ** Training *)

(** Events of a completed training: the fit, the evaluation, and the log
    of the evaluation metrics. *)
Definition training_event (e : event) : bool :=
  match e with
  | Called c =>
      match c with
      | Fit _ _ _ _ _ _ _ _ _ | Evaluate _ _ _ => true
      | _ => false
      end
  | Logged logger _ msg _ =>
      String.eqb logger "test" && String.eqb msg metrics_message
  | _ => false
  end.

Lemma detection_training_fails ask mp ds wp w flag :
  effective mp w !! "train" = Some flag -> truthy flag = true ->
  stage_post (fun e => negb (training_event e)) (fun r => returned r = false)
             (run_detection ask mp ds wp) mp w.
Proof.
  intros Hk Hf. rewrite <- (config_merged true) in Hk.
  unfold run_detection. apply (stage_intro true).
  spec_paths ltac:(try done).
Qed.

(** C6: with [train] true in the effective configuration, [run_detection]
    does not get to train: [setup_callbacks] is called without its required
    parameter [lr], which is a [TypeError].  The stage never returns, and
    neither the fit, nor the evaluation, nor the log of the four loss
    components takes place. *)
Theorem C6_training_is_not_reached ask (model_params : loc)
    (dataset_avg_size : pyval) (weights_path : string) (w : world)
    (flag : pyval) :
  effective model_params w !! "train" = Some flag -> truthy flag = true ->
  let r := run_detection ask model_params dataset_avg_size weights_path w in
  returned (fst r) = false /\
  exists evs, trace (snd r) = trace w ++ evs /\
              forall e, e ∈ evs -> training_event e = false.
Proof.
  intros Hk Hf r. subst r.
  pose proof (detection_training_fails ask model_params dataset_avg_size
                weights_path w flag Hk Hf) as Hpost.
  split; [apply Hpost|].
  destruct (stage_post_events _ _ _ _ _ Hpost) as (evs & Ht & He).
  exists evs. split; [done|]. intros e Hin.
  destruct (He e Hin) as [-> | HP]; [done|]. by apply negb_true_iff.
Qed.

Lemma C6_training_is_not_reached_witness :
  fst (run_detection Sample.steady 2%positive (VObj 12) "runs/w"
         (Sample.start (Sample.stage_params true true false) []))
  = Raise (TypeError
             "setup_callbacks() missing 1 required positional argument: 'lr'") /\
  returned
    (fst (run_detection Sample.steady 2%positive (VObj 12) "runs/w"
            (Sample.start (Sample.stage_params true true false) [])))
  = false.
Proof.
  split; [by vm_compute|].
  apply (C6_training_is_not_reached Sample.steady 2%positive (VObj 12) "runs/w"
           (Sample.start (Sample.stage_params true true false) [])
           (VBool true)); by vm_compute.
Defined.

(** The call of [train] that follows would be rejected as well: it names
    parameters [train] does not have. *)
Example train_call_is_rejected (model init_epoch epochs ts vs tsteps vsteps
                                  callbacks : pyval) :
  bind_keywords sig_train
    [("model", model); ("init_epoch", init_epoch); ("epochs", epochs);
     ("training_set", ts); ("validation_set", vs);
     ("training_steps", tsteps); ("validation_steps", vsteps);
     ("callbacks", callbacks)]
  = Raise (TypeError "train() got an unexpected keyword argument 'training_set'").
Proof. reflexivity. Qed.

(** Called the way it is declared, [train] fits with
    [size // batch_size + 1] steps for each set. *)
Example train_fits_with_floor_plus_one :
  let w := Sample.start (Sample.stage_params true true false) [] in
  let r := train Sample.steady (VObj 14) (VObj 1) (VInt 0) (VInt 1) (VInt 8)
                 (VList []) (VBool false) w in
  fst r = Ret tt /\
  Called (Fit false (VObj 1) (VObj 5) (VInt 1) (VInt 3) (VObj 6) (VInt 3)
              (VList []) (VInt 0)) ∈ trace (snd r).
Proof.
  split; [by vm_compute|]. vm_compute. repeat constructor.
Qed.

(** ** Merging the configuration *)

Definition is_updated (e : event) : bool :=
  match e with Updated _ _ => true | _ => false end.

Definition not_updated (e : event) : bool := negb (is_updated e).

(** A run that merges exactly once: one [update] of the caller's
    dictionary with the dataset parameters, after which that dictionary, in
    place, is the merged one; nothing else in the store changes. *)
Definition merges_once {A} (m : M A) (model_params : loc) (w : world) : Prop :=
  let r := m w in
  heap (snd r) = <[model_params := effective model_params w]> (heap w) /\
  exists before after,
    trace (snd r)
    = trace w ++ before ++ Updated model_params (dataset_params (self w)) :: after /\
    forallb not_updated (before ++ after) = true.

Lemma merges_once_of_post {A} Q (m : M A) model_params w :
  stage_post not_updated Q m model_params w -> merges_once m model_params w.
Proof.
  intros (_ & Hh & evs & Ht & HP & _). split; [done|].
  exists [], evs. by split.
Qed.

Lemma preprocessing_merges_once ask mp wp w :
  merges_once (run_preprocessing ask mp wp) mp w.
Proof.
  apply (merges_once_of_post (fun _ => True)).
  unfold run_preprocessing. apply (stage_intro false).
  spec_run ltac:(try done).
Qed.

Lemma detection_merges_once ask mp ds wp w :
  merges_once (run_detection ask mp ds wp) mp w.
Proof.
  apply (merges_once_of_post (fun _ => True)).
  unfold run_detection. apply (stage_intro true).
  spec_run ltac:(try done).
Qed.

Lemma classification_merges_once ask mp tl bb wp w :
  merges_once (run_classification ask mp tl bb wp) mp w.
Proof.
  apply (merges_once_of_post (fun _ => True)).
  unfold run_classification. apply (stage_intro true).
  spec_run ltac:(try done).
Qed.

Lemma merges_once_after_log {A} logger level msg (body : M A) model_params w :
  (forall w1, stage_post not_updated (fun _ => True)
                (bind (merge_dataset_params model_params) (fun _ => body))
                model_params w1) ->
  merges_once (bind (log logger level msg [])
                 (fun _ => bind (merge_dataset_params model_params)
                             (fun _ => body)))
              model_params w.
Proof.
  intros H.
  destruct (H (record (Logged logger level msg []) w))
    as (_ & Hh & evs & Ht & HP & _).
  split; [exact Hh|].
  exists [Logged logger level msg []], evs. split; [|exact HP].
  unfold bind at 1. cbn [log emit]. rewrite Ht. cbn. by rewrite <- app_assoc.
Qed.

Lemma hourglass_merges_once ask mp ds wp run_id w :
  merges_once (run_hourglass_detection ask mp ds wp run_id) mp w.
Proof.
  unfold run_hourglass_detection. apply merges_once_after_log. intros w1.
  apply (stage_intro true). spec_run ltac:(try done).
Qed.

Lemma effective_lookup model_params w key :
  effective model_params w !! key
  = match dict_at (dataset_params (self w)) w !! key with
    | Some v => Some v
    | None => dict_at model_params w !! key
    end.
Proof.
  unfold effective. rewrite lookup_union.
  by destruct (dict_at (dataset_params (self w)) w !! key),
              (dict_at model_params w !! key).
Qed.

(** C8, as the code has it: each of the four stages merges exactly once,
    by one [update] that changes the caller's dictionary in place and
    nothing else in the store; afterwards a key of the dataset parameters
    has the dataset parameters' value, also when the stage parameters had
    the key, and any other key keeps the stage parameters' value. *)
Theorem C8_merge_in_place ask (model_params : loc) (weights_path : string)
    (w : world) :
  merges_once (run_preprocessing ask model_params weights_path) model_params w /\
  (forall dataset_avg_size run_id,
     merges_once (run_hourglass_detection ask model_params dataset_avg_size
                                          weights_path run_id)
                 model_params w) /\
  (forall dataset_avg_size,
     merges_once (run_detection ask model_params dataset_avg_size weights_path)
                 model_params w) /\
  (forall train_list bbox_predictions,
     merges_once (run_classification ask model_params train_list
                                     bbox_predictions weights_path)
                 model_params w) /\
  (forall key,
     effective model_params w !! key
     = match dict_at (dataset_params (self w)) w !! key with
       | Some v => Some v
       | None => dict_at model_params w !! key
       end).
Proof.
  split; [apply preprocessing_merges_once|].
  split; [intros; apply hourglass_merges_once|].
  split; [intros; apply detection_merges_once|].
  split; [intros; apply classification_merges_once|].
  apply effective_lookup.
Qed.

(** C8 as stated fails: the stage parameters say [batch_size = 8], the
    dataset parameters say 4, and after the stage the caller's dictionary
    says 4. *)
Lemma C8_stage_value_does_not_win :
  ~ (forall ask model_params dataset_avg_size weights_path w key v,
       dict_at model_params w !! key = Some v ->
       is_Some (dict_at (dataset_params (self w)) w !! key) ->
       dict_at model_params
               (snd (run_detection ask model_params dataset_avg_size
                                   weights_path w)) !! key = Some v).
Proof.
  intros H.
  specialize (H Sample.steady 2%positive (VObj 12) "runs/w"
                (Sample.start (Sample.stage_params false false false) [])
                "batch_size" (VInt 8)).
  assert (Hk : dict_at 2%positive
                 (Sample.start (Sample.stage_params false false false) [])
                 !! "batch_size" = Some (VInt 8)) by by vm_compute.
  assert (Hb : is_Some (dict_at (dataset_params
                                   (self (Sample.start
                                            (Sample.stage_params false false false) [])))
                                (Sample.start (Sample.stage_params false false false) [])
                          !! "batch_size")).
  { exists (VInt 4). by vm_compute. }
  specialize (H Hk Hb). vm_compute in H. discriminate H.
Qed.

(** ** The weights folder *)

(** *** Trees *)











(** *** Paths *)








(** *** What [rmtree] does *)






(** *** The confirmation *)








(** A configuration that asks for a fresh training. *)
Definition fresh_training (cfg : gmap string pyval) : Prop :=
  has cfg "train" truthy /\ has cfg "restore_weights" falsy.

Lemma fresh_check model_params folder w :
  fresh_training (dict_at model_params w) ->
  check_if_fresh_training model_params folder w
  = check_no_weights_in_run_folder folder w.
Proof.
  intros [(t & Ht & Htt) (r & Hr & Hrr)]. apply negb_true_iff in Hrr.
  unfold check_if_fresh_training, bind, lookup_key, ret.
  rewrite Ht, Htt, Hr, Hrr. cbn.
  by destruct (check_no_weights_in_run_folder folder w) as [[[] | e] w'].
Qed.

(** The world once the input shape is stored. *)
Definition shaped (model_params : loc) (w : world) : world :=
  match dict_at model_params w !! "input_width",
        dict_at model_params w !! "input_height",
        dict_at model_params w !! "input_channels" with
  | Some width, Some height, Some channels =>
      with_self {| dataset_params := dataset_params (self w);
                   input_shape := VList [width; height; channels];
                   dict_cat := dict_cat (self w);
                   test_list := test_list (self w) |} w
  | _, _, _ => w
  end.

Definition has_shape (cfg : gmap string pyval) : Prop :=
  has cfg "input_width" any_value /\ has cfg "input_height" any_value /\
  has cfg "input_channels" any_value.

Lemma set_input_shape_run model_params w :
  has_shape (dict_at model_params w) ->
  set_input_shape model_params w = (Ret tt, shaped model_params w).
Proof.
  intros ((a & Ha & _) & (b & Hb & _) & (c & Hc & _)).
  unfold set_input_shape, shaped, bind, lookup_key, store_input_shape.
  by rewrite Ha, Hb, Hc.
Qed.

Lemma shaped_frame model_params w :
  fs (shaped model_params w) = fs w /\ stdin (shaped model_params w) = stdin w /\
  trace (shaped model_params w) = trace w /\
  heap (shaped model_params w) = heap w.
Proof.
  unfold shaped.
  by destruct (dict_at model_params w !! "input_width"),
              (dict_at model_params w !! "input_height"),
              (dict_at model_params w !! "input_channels").
Qed.

Lemma dict_at_shaped d model_params w :
  dict_at d (shaped model_params w) = dict_at d w.
Proof.
  unfold dict_at. by destruct (shaped_frame model_params w) as (_ & _ & _ & ->).
Qed.













(** *** The folder after the confirmation *)












(** ** Restoring weights *)

(** *** Texts and their characters *)





(** *** Decimal texts *)












(** *** Patterns with one star *)

Import Fnmatch.










(** *** Paths *)

Import Path.











(** *** What [glob] finds *)








(** *** The checkpoint that is restored *)
















(** ** Step counts *)

(** *** Running a sequence by hand *)

(** One statement of a sequence, when the collaborators do not fail. *)
Ltac answer ask Hr :=
  match goal with
  | |- context [ask ?R ?w0 ?c] =>
      let H := fresh "Hask" in
      let a := fresh "a" in
      pose proof (Hr R w0 c) as H;
      destruct (ask R w0 c) as [a | ?]; [clear H | discriminate H]
  end.

Ltac call_step ask Hr :=
  unfold bind at 1, external at 1; answer ask Hr; cbv beta iota.

(** The trace and the pipeline object of a world after some events. *)
Ltac settle_trace :=
  repeat match goal with
  | |- context [trace (record ?e ?w0)] =>
      change (trace (record e w0)) with (trace w0 ++ [e])
  | |- context [trace (with_heap ?h ?w0)] =>
      change (trace (with_heap h w0)) with (trace w0)
  | |- context [self (record ?e ?w0)] =>
      change (self (record e w0)) with (self w0)
  | |- context [self (with_heap ?h ?w0)] =>
      change (self (with_heap h w0)) with (self w0)
  end.

Definition is_fit (e : event) : bool :=
  match e with
  | Called c => match c with Fit _ _ _ _ _ _ _ _ _ => true | _ => false end
  | _ => false
  end.

(** A dataset whose training and validation sets come with an integer
    size. *)
Definition sized (ask : forall R : Type, world -> call R -> outcome R)
    (dataset : pyval) : Prop :=
  forall w,
    (exists set n, ask _ w (GetTrainingSet dataset) = Ret (set, VInt n)) /\
    (exists set n, ask _ w (GetValidationSet dataset) = Ret (set, VInt n)).

Lemma py_str_cases ask v w :
  reliable ask ->
  exists s, py_str ask v w = (Ret s, w) \/
            py_str ask v w = (Ret s, record (Called (Repr v)) w).
Proof.
  intros Hr.
  destruct v; cbn; eauto; unfold external;
    match goal with
    | |- context [ask string ?w0 ?c] =>
        pose proof (Hr string w0 c) as H;
        destruct (ask string w0 c) as [s |]; [eauto | discriminate H]
    end.
Qed.

Ltac log_step := unfold bind at 1; cbn [log emit].

Ltac str_step ask Hr :=
  unfold bind at 1;
  match goal with
  | |- context [py_str ask ?v ?w0] =>
      let s := fresh "s" in
      destruct (py_str_cases ask v w0 Hr) as (s & [-> | ->])
  end;
  cbv beta iota.

Ltac trace_is_prefix :=
  settle_trace; rewrite <- ?app_assoc; cbn [app]; reflexivity.

Lemma steps_for_int (n b : Z) :
  b <> 0 -> steps_for (VInt n) (VInt b) = Ret (VInt (n / b + 1)).
Proof.
  intros Hb. unfold steps_for, floordiv. cbn [as_num].
  by destruct (Z.eqb_spec b 0).
Qed.

Lemma trace_ends {A} (l before : list A) (x y : A) (t : list A) :
  t = ((l ++ before) ++ [x]) ++ [y] -> t = l ++ before ++ [x; y].
Proof. intros ->. by rewrite <- !app_assoc. Qed.

(** A trace that ends in two given events. *)
Ltac trace_ends_in :=
  apply trace_ends; settle_trace;
  apply (f_equal2 app); [|reflexivity];
  apply (f_equal2 app); [|reflexivity];
  rewrite <- ?app_assoc; cbn [app]; reflexivity.

(** [train], called as it is declared: one fit, with
    [size // batch_size + 1] steps for each of the two sets. *)
Lemma train_run ask (dataset model init_epoch epochs callbacks
                               augmentation : pyval) (batch_size : Z)
    (w : world) :
  reliable ask -> sized ask dataset -> batch_size <> 0 ->
  let r := train ask dataset model init_epoch epochs (VInt batch_size)
                 callbacks augmentation w in
  fst r = Ret tt /\
  exists before data training validation training_size validation_size w1 w2,
    ask _ w1 (GetTrainingSet dataset) = Ret (training, VInt training_size) /\
    ask _ w2 (GetValidationSet dataset) = Ret (validation, VInt validation_size) /\
    (truthy augmentation = false -> data = training) /\
    (forall e, e ∈ before -> is_fit e = false) /\
    trace (snd r)
    = trace w ++ before
      ++ [Called (Fit (truthy augmentation) model data epochs
                      (VInt (training_size / batch_size + 1)) validation
                      (VInt (validation_size / batch_size + 1)) callbacks
                      init_epoch);
          Logged "training" "info"
                 ("Training procedure performed successfully!" +:+ newline) []].
Proof.
  intros Hr Hs Hb r.
  enough (exists w',
             r = (Ret tt, w') /\
             exists before data training validation training_size
                    validation_size w1 w2,
               ask _ w1 (GetTrainingSet dataset)
               = Ret (training, VInt training_size) /\
               ask _ w2 (GetValidationSet dataset)
               = Ret (validation, VInt validation_size) /\
               (truthy augmentation = false -> data = training) /\
               forallb (fun e => negb (is_fit e)) before = true /\
               trace w'
               = trace w ++ before
                 ++ [Called (Fit (truthy augmentation) model data epochs
                                 (VInt (training_size / batch_size + 1))
                                 validation
                                 (VInt (validation_size / batch_size + 1))
                                 callbacks init_epoch);
                     Logged "training" "info"
                            ("Training procedure performed successfully!" +:+ newline) []])
    as (w' & -> & before & data & ts & vs & nt & nv & w1 & w2 & H1 & H2 & H3
        & H4 & H5).
  { split; [done|]. exists before, data, ts, vs, nt, nv, w1, w2.
    repeat split; try done.
    intros e He%list_elem_of_In. rewrite forallb_forall in H4.
    by apply negb_true_iff, H4. }
  subst r. unfold train.
  log_step. log_step. call_step ask Hr. log_step.
  str_step ask Hr; log_step; str_step ask Hr; log_step;
    (unfold bind at 1, external at 1;
     match goal with
     | |- context [ask _ ?w0 (GetTrainingSet dataset)] =>
         destruct (proj1 (Hs w0)) as (ts & nt & Hts); rewrite Hts
     end; cbv beta iota zeta);
    (unfold bind at 1, external at 1;
     match goal with
     | |- context [ask _ ?w0 (GetValidationSet dataset)] =>
         destruct (proj2 (Hs w0)) as (vs & nv & Hvs); rewrite Hvs
     end; cbv beta iota zeta);
    rewrite !steps_for_int by done;
    (unfold bind at 1; cbn [lift]); (unfold bind at 1; cbn [lift]);
    unfold bind at 1;
    (destruct (truthy augmentation);
     [ call_step ask Hr;
       match goal with
       | p : (pyval * pyval)%type |- _ => destruct p
       end;
       call_step ask Hr; call_step ask Hr
     | ]);
    (unfold external at 1; answer ask Hr; cbv beta iota; cbn [log emit]);
    (eexists; split; [reflexivity|]);
    eexists _, _, _, _, _, _, _, _;
    (split; [exact Hts|]); (split; [exact Hvs|]);
    (split; [first [discriminate | intros _; reflexivity]|]);
    (split; [|trace_ends_in]);
    reflexivity.
Qed.

Lemma steady_sized dataset : sized Sample.steady dataset.
Proof. intros w. split; eexists _, _; reflexivity. Qed.

(** *** The formula *)










(** ** Category counts *)

(** A configuration that asks for no fresh training. *)
Definition settled (cfg : gmap string pyval) : Prop :=
  has cfg "train" falsy \/
  (has cfg "train" truthy /\ has cfg "restore_weights" truthy).

(** A start at which the user is not asked: no fresh training, or no
    weights folder, or an empty one. *)
Definition unprompted (cfg : gmap string pyval) (tree : node) (folder : string)
  : Prop :=
  settled cfg \/
  (fresh_training cfg /\
   (isdir tree folder = false \/ listdir tree folder = Ret [])).

Lemma check_passes model_params folder w :
  unprompted (dict_at model_params w) (fs w) folder ->
  check_if_fresh_training model_params folder w = (Ret tt, w).
Proof.
  intros [[(t & Ht & Htf) | [(t & Ht & Htt) (r & Hr & Hrt)]] | [Hfresh Hdir]].
  - apply negb_true_iff in Htf.
    unfold check_if_fresh_training, bind, lookup_key, ret. by rewrite Ht, Htf.
  - unfold check_if_fresh_training, bind, lookup_key, ret.
    by rewrite Ht, Htt, Hr, Hrt.
  - rewrite fresh_check by done.
    unfold check_no_weights_in_run_folder, bind, os_path_isdir, os_listdir.
    destruct (isdir (fs w) folder) eqn:Hd; [|done].
    destruct Hdir as [H | H]; [done|]. by rewrite H.
Qed.

(** The log line of [build_model]. *)
Definition building (mode : string) : event :=
  Logged "execution" "info" ("Building " +:+ mode +:+ " model...") [].

(** A run that begins by building a model: its first two events are the
    log line of [build_model] and the construction of a model in this
    mode, with this category count, on the input shape the pipeline
    holds. *)
Definition builds_first {A} (body : M A) (mode : string) (n : Z) (w : world)
  : Prop :=
  exists evs,
    trace (snd (body w))
    = trace w ++ [building mode;
                  Called (GenerateModel (input_shape (self w)) (VStr mode)
                                        (VInt n))] ++ evs.

(** A stage that gets to build its model: after the merge, the first two
    events are those of [build_model], on this shape. *)
Definition stage_builds {A} (run : M A) (model_params : loc) (mode : string)
    (n : Z) (shape : pyval) (w : world) : Prop :=
  exists evs,
    trace (snd (run w))
    = trace w ++ [Updated model_params (dataset_params (self w));
                  building mode;
                  Called (GenerateModel shape (VStr mode) (VInt n))] ++ evs.

Lemma trace_grows {A} tracked (m : M A) w :
  spec (setting_of tracked w) (fun _ => true) m (fun _ => True) ->
  exists evs, trace (snd (m w)) = trace w ++ evs.
Proof.
  intros H. destruct (H w (fits_setting_of _ _)) as (_ & (evs & Ht & _) & _).
  eauto.
Qed.

Lemma grows_after {A} (m : M A) (w w' : world) (first : list event) :
  trace w' = trace w ++ first ->
  (exists evs, trace (snd (m w')) = trace w' ++ evs) ->
  exists evs, trace (snd (m w')) = trace w ++ first ++ evs.
Proof.
  intros Hw (evs & Ht). exists evs. by rewrite Ht, Hw, <- app_assoc.
Qed.

Lemma detection_body_builds ask mp ds wp w :
  builds_first (detection_body ask mp ds wp) "detection" 1 w.
Proof.
  unfold builds_first, detection_body. unfold bind at 1. cbn [this].
  unfold bind at 1.
  change (call_build_model ask [("input_shape", input_shape (self w));
                                ("mode", VStr "detection");
                                ("n_category", VInt 1)] w)
    with (ask pyval (record (building "detection") w)
              (GenerateModel (input_shape (self w)) (VStr "detection") (VInt 1)),
          record (Called (GenerateModel (input_shape (self w)) (VStr "detection")
                                        (VInt 1)))
                 (record (building "detection") w)).
  destruct (ask pyval _ _) as [model | e].
  - cbv beta iota. apply grows_after; [cbn; by rewrite <- app_assoc|].
    apply (trace_grows true). spec_run ltac:(try done).
  - exists []. cbn. by rewrite <- app_assoc.
Qed.

Lemma classification_body_builds ask mp tl bb wp w :
  builds_first (classification_body ask mp tl bb wp) "classification"
               (Z.of_nat (size (dict_cat (self w)))) w.
Proof.
  unfold builds_first, classification_body. unfold bind at 1. cbn [this].
  unfold bind at 1.
  change (call_build_model ask
            [("input_shape", input_shape (self w));
             ("mode", VStr "classification");
             ("n_category", VInt (Z.of_nat (size (dict_cat (self w)))))] w)
    with (ask pyval (record (building "classification") w)
              (GenerateModel (input_shape (self w)) (VStr "classification")
                             (VInt (Z.of_nat (size (dict_cat (self w)))))),
          record (Called (GenerateModel (input_shape (self w))
                                        (VStr "classification")
                                        (VInt (Z.of_nat (size (dict_cat (self w)))))))
                 (record (building "classification") w)).
  destruct (ask pyval _ _) as [model | e].
  - cbv beta iota. apply grows_after; [cbn; by rewrite <- app_assoc|].
    apply (trace_grows true). spec_run ltac:(try done).
  - exists []. cbn. by rewrite <- app_assoc.
Qed.

(** With the three keys of the shape in the configuration and no question
    to the user, a stage is its statements after the check, run once the
    shape is stored. *)
Lemma start_of_stage {A} (body : M A) mp wp w width height channels :
  effective mp w !! "input_width" = Some width ->
  effective mp w !! "input_height" = Some height ->
  effective mp w !! "input_channels" = Some channels ->
  unprompted (effective mp w) (fs w) wp ->
  let started := shaped mp (merged mp w) in
  (merge_dataset_params mp ;; set_input_shape mp ;;
   check_if_fresh_training mp wp ;; body) w = body started /\
  trace started = trace w ++ [Updated mp (dataset_params (self w))] /\
  input_shape (self started) = VList [width; height; channels] /\
  dict_cat (self started) = dict_cat (self w).
Proof.
  intros Hw Hh Hc Hu. cbv zeta.
  assert (Hshape : has_shape (dict_at mp (merged mp w))).
  { rewrite dict_at_merged. by repeat split; eexists. }
  destruct (shaped_frame mp (merged mp w)) as (Hfs & _ & Htr & _).
  split; [|split; [|split]].
  - unfold bind at 1. rewrite merge_run. unfold bind at 1.
    rewrite set_input_shape_run by done. unfold bind at 1.
    rewrite check_passes; [done|].
    by rewrite dict_at_shaped, dict_at_merged, Hfs.
  - rewrite Htr. reflexivity.
  - unfold shaped. rewrite dict_at_merged, Hw, Hh, Hc. reflexivity.
  - unfold shaped. rewrite dict_at_merged, Hw, Hh, Hc. reflexivity.
Qed.

Lemma stage_builds_from {A} (run body : M A) mp mode n shape w started :
  run w = body started ->
  trace started = trace w ++ [Updated mp (dataset_params (self w))] ->
  input_shape (self started) = shape ->
  builds_first body mode n started ->
  stage_builds run mp mode n shape w.
Proof.
  intros Hrun Htr Hshape (evs & Ht). exists evs.
  rewrite Hrun, Ht, Htr, Hshape, <- app_assoc. reflexivity.
Qed.

(** C9: every model that [run_detection] builds is built in mode
    [detection] with category count 1, and every model that
    [run_classification] builds is built in mode [classification] with
    category count the size of the vocabulary held by the pipeline object,
    whatever the world and the collaborators.  And the model is built: the
    statements after the check of the folder begin with [build_model], so
    that with the three keys of the input shape in the configuration and no
    question to the user, the first thing either stage does after the merge
    is to build its model, with this count, on the shape just stored.  The
    vocabulary is the one the preprocessing dataset produced when
    [run_preprocessing] returned. *)
Theorem C9_category_counts ask (model_params : loc) (weights_path : string)
    (w : world) :
  (forall dataset_avg_size,
     exists evs,
       trace (snd (run_detection ask model_params dataset_avg_size
                                 weights_path w)) = trace w ++ evs /\
       forall e shape mode n,
         e ∈ evs -> built e = Some (shape, mode, n) ->
         mode = VStr "detection" /\ n = VInt 1) /\
  (forall train_list bbox_predictions,
     exists evs,
       trace (snd (run_classification ask model_params train_list
                                      bbox_predictions weights_path w))
       = trace w ++ evs /\
       forall e shape mode n,
         e ∈ evs -> built e = Some (shape, mode, n) ->
         mode = VStr "classification" /\
         n = VInt (Z.of_nat (size (dict_cat (self w))))) /\
  (forall dataset_avg_size w',
     builds_first (detection_body ask model_params dataset_avg_size
                                  weights_path) "detection" 1 w') /\
  (forall train_list bbox_predictions w',
     builds_first (classification_body ask model_params train_list
                                       bbox_predictions weights_path)
                  "classification" (Z.of_nat (size (dict_cat (self w')))) w') /\
  (forall width height channels,
     effective model_params w !! "input_width" = Some width ->
     effective model_params w !! "input_height" = Some height ->
     effective model_params w !! "input_channels" = Some channels ->
     unprompted (effective model_params w) (fs w) weights_path ->
     (forall dataset_avg_size,
        stage_builds (run_detection ask model_params dataset_avg_size
                                    weights_path)
                     model_params "detection" 1
                     (VList [width; height; channels]) w) /\
     (forall train_list bbox_predictions,
        stage_builds (run_classification ask model_params train_list
                                         bbox_predictions weights_path)
                     model_params "classification"
                     (Z.of_nat (size (dict_cat (self w))))
                     (VList [width; height; channels]) w)) /\
  (forall dataset w',
     run_preprocessing ask model_params weights_path w = (Ret dataset, w') ->
     exists w1,
       ask _ w1 (PreprocessingGenerate dataset) = Ret (dict_cat (self w'))).
Proof.
  split; [|split; [|split; [|split; [|split]]]].
  - intros ds.
    destruct (stage_post_events _ _ _ _ _ (detection_builds ask model_params ds
                                             weights_path w))
      as (evs & Ht & He).
    exists evs. split; [done|]. intros e shape mode n Hin Hb.
    destruct (He e Hin) as [-> | HP]; [discriminate|].
    eapply builds_as_built; eauto.
  - intros tl bb.
    destruct (stage_post_events _ _ _ _ _ (classification_builds ask model_params
                                             tl bb weights_path w))
      as (evs & Ht & He).
    exists evs. split; [done|]. intros e shape mode n Hin Hb.
    destruct (He e Hin) as [-> | HP]; [discriminate|].
    eapply builds_as_built; eauto.
  - intros. apply detection_body_builds.
  - intros. apply classification_body_builds.
  - intros width height channels Hw Hh Hc Hu. split; intros.
    + destruct (start_of_stage (detection_body ask model_params
                                  dataset_avg_size weights_path)
                  model_params weights_path w width height channels
                  Hw Hh Hc Hu) as (Hrun & Htr & Hshape & _).
      eapply stage_builds_from; eauto. apply detection_body_builds.
    + destruct (start_of_stage (classification_body ask model_params
                                  train_list bbox_predictions weights_path)
                  model_params weights_path w width height channels
                  Hw Hh Hc Hu) as (Hrun & Htr & Hshape & Hcat).
      eapply stage_builds_from; eauto. rewrite <- Hcat.
      apply classification_body_builds.
  - intros dataset w'. apply preprocessing_stores_vocabulary.
Qed.

(** The sample once the preprocessing stage has run: the vocabulary has
    three categories. *)
Definition preprocessed : world :=
  snd (run_preprocessing Sample.steady 2%positive "runs/w"
         (Sample.start (Sample.stage_params false false false) [])).

Lemma preprocessed_unprompted :
  unprompted (effective 2%positive preprocessed) (fs preprocessed) "runs/w".
Proof. left. left. eexists. split; by vm_compute. Qed.

Lemma C9_category_counts_witness :
  stage_builds (run_detection Sample.steady 2%positive (VObj 12) "runs/w")
               2%positive "detection" 1 (VList [VInt 512; VInt 512; VInt 3])
               preprocessed /\
  stage_builds (run_classification Sample.steady 2%positive (VList []) VNone
                                   "runs/w")
               2%positive "classification" 3
               (VList [VInt 512; VInt 512; VInt 3]) preprocessed.
Proof.
  destruct (C9_category_counts Sample.steady 2%positive "runs/w" preprocessed)
    as (_ & _ & _ & _ & H & _).
  destruct (H (VInt 512) (VInt 512) (VInt 3) eq_refl eq_refl eq_refl
              preprocessed_unprompted) as [Hd Hc].
  split; [apply Hd | apply (Hc (VList []) VNone)].
Defined.

(** The three stages in a row on the sample: the detector is built with
    one category, the classifier with the three of the vocabulary. *)
Example category_counts_on_sample :
  let w0 := Sample.start (Sample.stage_params false false false) [] in
  let '(_, w1) := run_preprocessing Sample.steady 2%positive "runs/w" w0 in
  let '(_, w2) := run_detection Sample.steady 2%positive (VObj 12) "runs/w" w1 in
  let '(_, w3) := run_classification Sample.steady 2%positive (VList []) VNone
                                     "runs/w" w2 in
  omap built (trace w3)
  = [(VList [VInt 512; VInt 512; VInt 3], VStr "detection", VInt 1);
     (VList [VInt 512; VInt 512; VInt 3], VStr "classification", VInt 3)].
Proof. by vm_compute. Qed.

(** * Further properties of the two classes *)

(** ** The check of the weights folder *)

(** X1: [__check_no_weights_in_run_folder] does nothing when the
    folder is no directory, or is a directory with no entry: it returns
    without a prompt, a removal or a log line, and the world is as it
    was. *)
Theorem check_skips_absent_or_empty_folder (folder : string) (w : world) :
  isdir (fs w) folder = false \/ listdir (fs w) folder = Ret [] ->
  check_no_weights_in_run_folder folder w = (Ret tt, w).
Proof.
  intros H. unfold check_no_weights_in_run_folder, bind, os_path_isdir, os_listdir.
  destruct (isdir (fs w) folder) eqn:Hd; [|done].
  destruct H as [H | H]; [done|]. by rewrite H.
Qed.

Lemma check_skips_absent_or_empty_folder_witness :
  check_no_weights_in_run_folder "runs/empty"
    (Sample.start (Sample.stage_params true false false) ["n"])
  = (Ret tt, Sample.start (Sample.stage_params true false false) ["n"]) /\
  check_no_weights_in_run_folder "runs/missing"
    (Sample.start (Sample.stage_params true false false) ["n"])
  = (Ret tt, Sample.start (Sample.stage_params true false false) ["n"]).
Proof.
  split; apply check_skips_absent_or_empty_folder.
  - right. reflexivity.
  - left. reflexivity.
Defined.

(** X2: when the folder is a directory with entries and standard
    input is at its end, the check shows its prompt and fails with
    [EOFError]; nothing is removed and nothing is logged. *)
Theorem check_at_end_of_input (folder : string) (w : world)
    (names : list string) :
  isdir (fs w) folder = true -> listdir (fs w) folder = Ret names ->
  names <> [] -> stdin w = [] ->
  check_no_weights_in_run_folder folder w
  = (Raise EOFError, record (Prompted (confirm_prompt folder) None) w).
Proof.
  intros Hd Hl Hn Hs.
  unfold check_no_weights_in_run_folder, bind, os_path_isdir, os_listdir.
  rewrite Hd, Hl. destruct names as [| n names]; [done|]. cbn [length Nat.eqb negb].
  unfold input. by rewrite Hs.
Qed.

Lemma check_at_end_of_input_witness :
  let w := Sample.start (Sample.stage_params true false false) [] in
  fst (check_no_weights_in_run_folder "runs/w" w) = Raise EOFError /\
  fs (snd (check_no_weights_in_run_folder "runs/w" w)) = Sample.disk.
Proof.
  cbv zeta.
  assert (Hn : ["tensorboard"; "weights.05-0.23.hdf5"; "weights.06-0.21.hdf5"]
               <> ([] : list string)) by discriminate.
  rewrite (check_at_end_of_input "runs/w"
             (Sample.start (Sample.stage_params true false false) [])
             ["tensorboard"; "weights.05-0.23.hdf5"; "weights.06-0.21.hdf5"]
             eq_refl eq_refl Hn eq_refl).
  split; reflexivity.
Defined.

(** ** The input shape *)

(** X3: [__set_input_shape] is all or nothing.  With the three keys
    [input_width], [input_height] and [input_channels] present it returns,
    and the world is the one before with the input shape of the pipeline
    object set to their values, in this order, and nothing else changed;
    otherwise it raises [KeyError] for the first key that is missing, in
    the same order, and the world is as it was. *)
Theorem set_input_shape_is_all_or_nothing (model_params : loc) (w : world) :
  let r := set_input_shape model_params w in
  match dict_at model_params w !! "input_width",
        dict_at model_params w !! "input_height",
        dict_at model_params w !! "input_channels" with
  | Some width, Some height, Some channels =>
      r = (Ret tt,
           with_self {| dataset_params := dataset_params (self w);
                        input_shape := VList [width; height; channels];
                        dict_cat := dict_cat (self w);
                        test_list := test_list (self w) |} w)
  | None, _, _ => r = (Raise (KeyError "input_width"), w)
  | Some _, None, _ => r = (Raise (KeyError "input_height"), w)
  | Some _, Some _, None => r = (Raise (KeyError "input_channels"), w)
  end.
Proof.
  cbv zeta. unfold set_input_shape, bind, lookup_key, store_input_shape.
  by destruct (dict_at model_params w !! "input_width"),
              (dict_at model_params w !! "input_height"),
              (dict_at model_params w !! "input_channels").
Qed.

(** ** Runs that are no fresh training *)

Definition is_prompted (e : event) : bool :=
  match e with Prompted _ _ => true | _ => false end.

Definition hands_off (e : event) : bool :=
  negb (is_prompted e || is_removed e).

Ltac impossible_branches :=
  try (exfalso;
       match goal with
       | H : negb true = true |- _ => discriminate H
       end).

Lemma preprocessing_hands_off ask mp wp w :
  settled (effective mp w) ->
  stage_post hands_off (fun _ => True) (run_preprocessing ask mp wp) mp w.
Proof.
  intros [(t & Ht & Htf) | [(t & Ht & Htt) (r & Hr & Hrt)]];
    rewrite <- (config_merged false) in *;
    try apply negb_true_iff in Htf;
    unfold run_preprocessing; apply (stage_intro false);
    spec_paths ltac:(try done); impossible_branches.
Qed.

Lemma detection_hands_off ask mp ds wp w :
  settled (effective mp w) ->
  stage_post hands_off (fun _ => True) (run_detection ask mp ds wp) mp w.
Proof.
  intros [H | [H1 H2]]; open_has;
    unfold run_detection; apply (stage_intro true);
    spec_paths ltac:(try done); impossible_branches.
Qed.

Lemma classification_hands_off ask mp tl bb wp w :
  settled (effective mp w) ->
  stage_post hands_off (fun _ => True) (run_classification ask mp tl bb wp) mp w.
Proof.
  intros [H | [H1 H2]]; open_has;
    unfold run_classification; apply (stage_intro true);
    spec_paths ltac:(try done); impossible_branches.
Qed.

(** A run that keeps its hands off the weights folder: it asks the user
    nothing, and it removes nothing. *)
Definition leaves_folder_alone {A} (run : M A) (w : world) : Prop :=
  exists evs, trace (snd (run w)) = trace w ++ evs /\
              forall e, e ∈ evs -> is_prompted e = false /\ is_removed e = false.

Lemma leaves_alone_of_post {A} Q (run : M A) mp w :
  stage_post hands_off Q run mp w -> leaves_folder_alone run w.
Proof.
  intros Hpost.
  destruct (stage_post_events _ _ _ _ _ Hpost) as (evs & Ht & He).
  exists evs. split; [done|]. intros e Hin.
  destruct (He e Hin) as [-> | H]; [done|].
  unfold hands_off in H. by apply negb_true_iff, orb_false_elim in H.
Qed.

(** X4: a run that is no fresh training ([train] falsy, or [train]
    and [restore_weights] both truthy) keeps its hands off the weights
    folder in each of the three stages that hold the check: the stage asks
    the user nothing and removes nothing, whatever the collaborators
    answer. *)
Theorem settled_runs_leave_folder_alone ask (model_params : loc)
    (weights_path : string) (w : world) :
  settled (effective model_params w) ->
  leaves_folder_alone (run_preprocessing ask model_params weights_path) w /\
  (forall dataset_avg_size,
     leaves_folder_alone
       (run_detection ask model_params dataset_avg_size weights_path) w) /\
  (forall train_list bbox_predictions,
     leaves_folder_alone
       (run_classification ask model_params train_list bbox_predictions
                           weights_path) w).
Proof.
  intros Hs. split; [|split; intros].
  - eapply leaves_alone_of_post, preprocessing_hands_off, Hs.
  - eapply leaves_alone_of_post, detection_hands_off, Hs.
  - eapply leaves_alone_of_post, classification_hands_off, Hs.
Qed.

Lemma settled_runs_leave_folder_alone_witness :
  leaves_folder_alone
    (run_detection Sample.steady 2%positive (VObj 12) "runs/w")
    (Sample.start (Sample.stage_params true true false) ["y"]).
Proof.
  assert (Hs : settled (effective 2%positive
                          (Sample.start (Sample.stage_params true true false) ["y"]))).
  { right. split; eexists; split; by vm_compute. }
  destruct (settled_runs_leave_folder_alone Sample.steady 2%positive "runs/w"
              (Sample.start (Sample.stage_params true true false) ["y"]) Hs)
    as (_ & Hd & _).
  apply (Hd (VObj 12)).
Defined.

(** ** The hourglass stage *)

(** The fixed part of the architecture, if the event constructs the
    network. *)
Definition hourglass_architecture (e : event) : option (Z * Z * Z) :=
  match e with
  | Called c =>
      match c with
      | NewHourglassNetwork _ _ classes stacks channels _ _ =>
          Some (classes, stacks, channels)
      | _ => None
      end
  | _ => None
  end.

Definition hourglass_event (e : event) : bool :=
  hands_off e &&
  match hourglass_architecture e with
  | Some (classes, stacks, channels) =>
      (classes =? 6) && (stacks =? 1) && (channels =? 256)
  | None => true
  end.

Lemma after_log_post {A} P (Q : outcome A -> Prop) logger level msg
    (body : M A) model_params w :
  P (Logged logger level msg []) = true ->
  (forall w1, stage_post P Q (bind (merge_dataset_params model_params)
                                   (fun _ => body)) model_params w1) ->
  let r := bind (log logger level msg [])
             (fun _ => bind (merge_dataset_params model_params)
                         (fun _ => body)) w in
  Q (fst r) /\
  exists evs, trace (snd r) = trace w ++ evs /\
              (forall e, e ∈ evs ->
                 e = Updated model_params (dataset_params (self w)) \/ P e = true) /\
              (existsb is_removed evs = false -> fs (snd r) = fs w).
Proof.
  intros HP H. cbv zeta.
  destruct (H (record (Logged logger level msg []) w))
    as (HQ & _ & evs & Ht & Hall & Hfs).
  assert (Hrun : bind (log logger level msg [])
                   (fun _ => bind (merge_dataset_params model_params)
                               (fun _ => body)) w
                 = bind (merge_dataset_params model_params) (fun _ => body)
                        (record (Logged logger level msg []) w))
    by reflexivity.
  rewrite Hrun. split; [exact HQ|].
  exists (Logged logger level msg []
          :: Updated model_params (dataset_params (self w)) :: evs).
  split; [rewrite Ht; cbn; by rewrite <- app_assoc|]. split.
  - intros e [-> | [-> | He]%elem_of_cons]%elem_of_cons; [by right | by left |].
    right. rewrite forallb_forall in Hall. by apply Hall, list_elem_of_In.
  - cbn. intros Hrm. by apply Hfs.
Qed.

(** X5: [run_hourglass_detection] holds no check of the weights
    folder: whatever the configuration and the collaborators, it asks the
    user nothing and removes nothing, and every hourglass network it
    constructs has 6 classes, 1 stack and 256 channels. *)
Theorem hourglass_never_checks_the_folder ask (model_params : loc)
    (dataset_avg_size : pyval) (weights_path : string) (run_id : pyval)
    (w : world) :
  let r := run_hourglass_detection ask model_params dataset_avg_size
                                   weights_path run_id w in
  exists evs,
    trace (snd r) = trace w ++ evs /\
    forall e, e ∈ evs ->
      is_prompted e = false /\ is_removed e = false /\
      forall classes stacks channels,
        hourglass_architecture e = Some (classes, stacks, channels) ->
        classes = 6 /\ stacks = 1 /\ channels = 256.
Proof.
  cbv zeta. unfold run_hourglass_detection.
  destruct (after_log_post hourglass_event (fun _ => True)
              "execution" "info" "Initializing Hourglass model..."
              (avg_sizes <~ external ask (GetDatasetLabels dataset_avg_size) ;;
               train_list <~ external ask (AnnotateSplitRecommend dataset_avg_size avg_sizes) ;;
               input_width <~ int_of_key model_params "input_width" ;;
               input_height <~ int_of_key model_params "input_height" ;;
               output_width <~ int_of_key model_params "output_width" ;;
               output_height <~ int_of_key model_params "output_height" ;;
               model <~ external ask
                 (NewHourglassNetwork run_id model_params 6 1 256
                    (input_width, input_height) (output_width, output_height)) ;;
               log "execution" "info" "Hourglass model successfully initialized!" [] ;;
               me <~ this ;;
               external ask
                 (HourglassTrain model model_params train_list (test_list me)
                                 weights_path))
              model_params w eq_refl) as (_ & evs & Ht & He & Hfs).
  { intros w1. apply (stage_intro true). spec_run ltac:(try done). }
  assert (Hoff : forall e, e ∈ evs -> hourglass_event e = true).
  { intros e Hin. destruct (He e Hin) as [-> | H]; [done | exact H]. }
  exists evs. split; [exact Ht|]. intros e Hin.
  specialize (Hoff e Hin). unfold hourglass_event in Hoff.
  apply andb_prop in Hoff as [Hoff Harch]. unfold hands_off in Hoff.
  apply negb_true_iff, orb_false_elim in Hoff as [-> ->].
  repeat split; try done; intros; destruct (hourglass_architecture e)
    as [[[c s] ch] |]; try done; simplify_eq;
    apply andb_prop in Harch as [[?%Z.eqb_eq ?%Z.eqb_eq]%andb_prop ?%Z.eqb_eq];
    done.
Qed.

(** The two numbers of a resolution, read from the configuration with
    [int]. *)
Definition resolution (cfg : gmap string pyval) (width height : string)
  : option (Z * Z) :=
  match cfg !! width, cfg !! height with
  | Some a, Some b =>
      match py_int a, py_int b with
      | Ret x, Ret y => Some (x, y)
      | _, _ => None
      end
  | _, _ => None
  end.

Lemma int_of_key_run d key w v :
  dict_at d w !! key = Some v -> int_of_key d key w = (py_int v, w).
Proof.
  intros H. unfold int_of_key, bind, lookup_key, lift. rewrite H.
  by destruct (py_int v).
Qed.

(** One call of a collaborator that does not fail, its answer kept. *)
Ltac answered ask Hr :=
  unfold bind at 1, external at 1;
  match goal with
  | |- context [ask ?R ?w0 ?c] =>
      let H := fresh "Hask" in
      let a := fresh "a" in
      let E := fresh "Ea" in
      pose proof (Hr R w0 c) as H;
      destruct (ask R w0 c) as [a | ?] eqn:E; [clear H | discriminate H]
  end;
  cbv beta iota.

(** X6: [run_hourglass_detection] reads no [train] flag.  When the
    collaborators do not fail and the input and output resolutions of the
    merged configuration convert to integers, it returns, and its events
    are exactly these: the first log line, the merge, the labels of the
    dataset, the split recommended for these labels, the network
    constructed with these resolutions, the second log line, and the
    training of that network on that recommended list, with the pipeline's
    test list and the given weights path. *)
Theorem hourglass_trains_whatever_the_flags ask (model_params : loc)
    (dataset_avg_size : pyval) (weights_path : string) (run_id : pyval)
    (w : world) (in_res out_res : Z * Z) :
  reliable ask ->
  resolution (effective model_params w) "input_width" "input_height"
  = Some in_res ->
  resolution (effective model_params w) "output_width" "output_height"
  = Some out_res ->
  let r := run_hourglass_detection ask model_params dataset_avg_size
                                   weights_path run_id w in
  fst r = Ret tt /\
  exists avg_sizes train_list model w1 w2 w3,
    ask _ w1 (GetDatasetLabels dataset_avg_size) = Ret avg_sizes /\
    ask _ w2 (AnnotateSplitRecommend dataset_avg_size avg_sizes)
    = Ret train_list /\
    ask _ w3 (NewHourglassNetwork run_id model_params 6 1 256 in_res out_res)
    = Ret model /\
    trace (snd r)
    = trace w
      ++ [Logged "execution" "info" "Initializing Hourglass model..." [];
          Updated model_params (dataset_params (self w));
          Called (GetDatasetLabels dataset_avg_size);
          Called (AnnotateSplitRecommend dataset_avg_size avg_sizes);
          Called (NewHourglassNetwork run_id model_params 6 1 256
                                      in_res out_res);
          Logged "execution" "info"
                 "Hourglass model successfully initialized!" [];
          Called (HourglassTrain model model_params train_list
                                 (test_list (self w)) weights_path)].
Proof.
  intros Hr Hin Hout. unfold resolution in Hin, Hout.
  destruct (effective model_params w !! "input_width") as [iw |] eqn:Hiw;
    [|done].
  destruct (effective model_params w !! "input_height") as [ih |] eqn:Hih;
    [|done].
  destruct (effective model_params w !! "output_width") as [ow |] eqn:How;
    [|done].
  destruct (effective model_params w !! "output_height") as [oh |] eqn:Hoh;
    [|done].
  destruct (py_int iw) as [iwz |] eqn:Eiw; [|done].
  destruct (py_int ih) as [ihz |] eqn:Eih; [|done].
  destruct (py_int ow) as [owz |] eqn:Eow; [|done].
  destruct (py_int oh) as [ohz |] eqn:Eoh; [|done].
  injection Hin as <-. injection Hout as <-.
  set (started := record (Logged "execution" "info"
                                 "Initializing Hourglass model..." []) w).
  assert (Hcfg : forall evs key v,
             effective model_params w !! key = Some v ->
             dict_at model_params
                     (fold_left (fun w0 e => record e w0) evs
                                (merged model_params started)) !! key
             = Some v).
  { intros evs key v <-.
    assert (Hd : forall w0, dict_at model_params
                              (fold_left (fun w0 e => record e w0) evs w0)
                            = dict_at model_params w0).
    { induction evs as [| e evs IH]; intros w0; [done|]. cbn. by rewrite IH. }
    rewrite Hd. unfold started. by rewrite dict_at_merged. }
  set (r := run_hourglass_detection ask model_params dataset_avg_size
                                     weights_path run_id w).
  enough (exists avg_sizes train_list model w1 w2 w3 w',
             ask _ w1 (GetDatasetLabels dataset_avg_size) = Ret avg_sizes /\
             ask _ w2 (AnnotateSplitRecommend dataset_avg_size avg_sizes)
             = Ret train_list /\
             ask _ w3 (NewHourglassNetwork run_id model_params 6 1 256
                                           (iwz, ihz) (owz, ohz))
             = Ret model /\
             r = (Ret tt, w') /\
             trace w'
             = trace w
               ++ [Logged "execution" "info" "Initializing Hourglass model..." [];
                   Updated model_params (dataset_params (self w));
                   Called (GetDatasetLabels dataset_avg_size);
                   Called (AnnotateSplitRecommend dataset_avg_size avg_sizes);
                   Called (NewHourglassNetwork run_id model_params 6 1 256
                                               (iwz, ihz) (owz, ohz));
                   Logged "execution" "info"
                          "Hourglass model successfully initialized!" [];
                   Called (HourglassTrain model model_params train_list
                                          (test_list (self w)) weights_path)])
    as (avg & tl & model & w1 & w2 & w3 & w' & H1 & H2 & H3 & -> & Htrace)
    by (split; [done | by exists avg, tl, model, w1, w2, w3]).
  subst r. unfold run_hourglass_detection.
  unfold bind at 1. cbn [log emit]. fold started.
  unfold bind at 1. rewrite merge_run. cbv beta iota.
  answered ask Hr. answered ask Hr.
  unfold bind at 1.
  rewrite (int_of_key_run _ _ _ iw)
    by apply (Hcfg [Called (GetDatasetLabels dataset_avg_size);
                    Called (AnnotateSplitRecommend dataset_avg_size a)]
                   _ _ Hiw).
  rewrite Eiw. unfold bind at 1.
  rewrite (int_of_key_run _ _ _ ih)
    by apply (Hcfg [Called (GetDatasetLabels dataset_avg_size);
                    Called (AnnotateSplitRecommend dataset_avg_size a)]
                   _ _ Hih).
  rewrite Eih. unfold bind at 1.
  rewrite (int_of_key_run _ _ _ ow)
    by apply (Hcfg [Called (GetDatasetLabels dataset_avg_size);
                    Called (AnnotateSplitRecommend dataset_avg_size a)]
                   _ _ How).
  rewrite Eow. unfold bind at 1.
  rewrite (int_of_key_run _ _ _ oh)
    by apply (Hcfg [Called (GetDatasetLabels dataset_avg_size);
                    Called (AnnotateSplitRecommend dataset_avg_size a)]
                   _ _ Hoh).
  rewrite Eoh. answered ask Hr.
  unfold bind at 1. cbn [log emit]. unfold bind at 1. cbn [this].
  unfold external.
  match goal with
  | |- context [ask unit ?w0 ?c] =>
      pose proof (Hr unit w0 c) as Hlast;
      destruct (ask unit w0 c) as [[] | ?]; [clear Hlast | discriminate Hlast]
  end.
  exists a, a0, a1. eexists _, _, _, _.
  split; [exact Ea|]. split; [exact Ea0|]. split; [exact Ea1|].
  split; [reflexivity|].
  unfold merged, started. settle_trace. rewrite <- !app_assoc. reflexivity.
Qed.

Lemma hourglass_trains_whatever_the_flags_witness :
  fst (run_hourglass_detection Sample.steady 2%positive (VObj 12) "runs/w"
         (VInt 1) (Sample.start (Sample.stage_params false false false) []))
  = Ret tt.
Proof.
  exact (proj1 (hourglass_trains_whatever_the_flags Sample.steady 2%positive
                  (VObj 12) "runs/w" (VInt 1)
                  (Sample.start (Sample.stage_params false false false) [])
                  (512, 512) (128, 128) steady_reliable eq_refl eq_refl)).
Defined.

(** ** The callbacks *)

Lemma setup_callbacks_run ask (folder : string) (batch_size : Z)
    (lr : pyval) (w : world) :
  reliable ask ->
  let r := setup_callbacks ask (VStr folder) (VInt batch_size) lr w in
  let checkpoint :=
    ModelCheckpoint (Path.join folder checkpoint_name) true true
                    "val_loss" "min" in
  let board :=
    TensorBoard (Path.join folder "tensorboard") (VInt batch_size)
                (VInt (batch_size * 10)) in
  let w1 := record (Called checkpoint) w in
  let w2 := record (Called board) w1 in
  exists checkpointer tensorboard lr_schedule,
    ask pyval w checkpoint = Ret checkpointer /\
    ask pyval w1 board = Ret tensorboard /\
    ask pyval w2 (LearningRateScheduler (lrs lr)) = Ret lr_schedule /\
    r = (Ret (VList [tensorboard; checkpointer; lr_schedule]),
         record (Called (LearningRateScheduler (lrs lr))) w2).
Proof.
  intros Hr. cbv zeta. unfold setup_callbacks.
  unfold bind at 1. cbn [lift as_str].
  unfold bind at 1, external at 1.
  pose proof (Hr _ w (ModelCheckpoint (Path.join folder checkpoint_name)
                                      true true "val_loss" "min")) as H1.
  destruct (ask pyval w _) as [checkpointer |] eqn:E1; [|discriminate H1].
  cbv beta iota zeta. unfold bind at 1. cbn [lift mul_int as_num].
  unfold bind at 1, external at 1.
  pose proof (Hr _ (record (Called (ModelCheckpoint
                                      (Path.join folder checkpoint_name)
                                      true true "val_loss" "min")) w)
                 (TensorBoard (Path.join folder "tensorboard")
                              (VInt batch_size) (VInt (batch_size * 10))))
    as H2.
  destruct (ask pyval _ (TensorBoard _ _ _)) as [tensorboard |] eqn:E2;
    [|discriminate H2].
  cbv beta iota. unfold bind at 1, external at 1.
  match goal with
  | |- context [ask pyval ?w0 (LearningRateScheduler (lrs lr))] =>
      pose proof (Hr _ w0 (LearningRateScheduler (lrs lr))) as H3;
      destruct (ask pyval w0 (LearningRateScheduler (lrs lr)))
        as [lr_schedule |] eqn:E3; [|discriminate H3]
  end.
  by exists checkpointer, tensorboard, lr_schedule.
Qed.

(** X8: [setup_callbacks], called as it is declared with a text
    path and an integer batch size, constructs the checkpoint callback on
    [<path>/weights.{epoch:02d}-{val_loss:.2f}.hdf5] first, then the
    tensorboard callback on [<path>/tensorboard] with an update frequency
    of ten batches, then the scheduler on [lrs]; it returns them in the
    order tensorboard, checkpoint, scheduler, and does nothing else. *)
Theorem setup_callbacks_as_declared ask (folder : string) (batch_size : Z)
    (lr : pyval) (w : world) :
  reliable ask ->
  let r := setup_callbacks ask (VStr folder) (VInt batch_size) lr w in
  let checkpoint :=
    ModelCheckpoint (Path.join folder checkpoint_name) true true
                    "val_loss" "min" in
  let board :=
    TensorBoard (Path.join folder "tensorboard") (VInt batch_size)
                (VInt (batch_size * 10)) in
  let w1 := record (Called checkpoint) w in
  let w2 := record (Called board) w1 in
  exists checkpointer tensorboard lr_schedule,
    ask pyval w checkpoint = Ret checkpointer /\
    ask pyval w1 board = Ret tensorboard /\
    ask pyval w2 (LearningRateScheduler (lrs lr)) = Ret lr_schedule /\
    r = (Ret (VList [tensorboard; checkpointer; lr_schedule]),
         record (Called (LearningRateScheduler (lrs lr))) w2).
Proof. apply setup_callbacks_run. Qed.

Lemma setup_callbacks_as_declared_witness :
  fst (setup_callbacks Sample.steady (VStr "runs/w") (VInt 8)
         (VFloat (FFinite (1 # 1000)))
         (Sample.start (Sample.stage_params true false false) []))
  = Ret (VList [VObj 3; VObj 2; VObj 4]).
Proof.
  destruct (setup_callbacks_as_declared Sample.steady "runs/w" 8
              (VFloat (FFinite (1 # 1000)))
              (Sample.start (Sample.stage_params true false false) [])
              steady_reliable)
    as (c & t & l & Hc & Ht & Hl & ->).
  cbn in Hc, Ht, Hl. by simplify_eq.
Defined.

(** The rate of a finite schedule at an epoch. *)
Definition rate_at (q : Q) (epoch : Z) : Q :=
  if epoch >? 20 then q / 10 else q.

Lemma tenth_is_no_more (q : Q) : (0 <= q)%Q -> (q / 10 <= q)%Q.
Proof.
  destruct q as [a b]. unfold Qle, Qdiv, Qmult, Qinv. cbn. intros H. nia.
Qed.

(** X9: for a finite rate [q >= 0], the schedule [lrs] gives [q]
    itself up to epoch 20 included and [q / 10] from epoch 21 on; so a
    later epoch never has a larger rate than an earlier one, and past
    epoch 20 the rate does not change again. *)
Theorem lrs_never_raises_the_rate (q : Q) (earlier later : Z) :
  (0 <= q)%Q -> earlier <= later ->
  lrs (VFloat (FFinite q)) earlier = Ret (VFloat (FFinite (rate_at q earlier))) /\
  lrs (VFloat (FFinite q)) later = Ret (VFloat (FFinite (rate_at q later))) /\
  (rate_at q later <= rate_at q earlier)%Q /\
  (later <= 20 -> rate_at q later = q) /\
  (20 < earlier -> rate_at q later = rate_at q earlier).
Proof.
  intros Hq Hle. unfold lrs, rate_at, truediv_int. cbn [as_num].
  pose proof (tenth_is_no_more q Hq) as Hten.
  destruct (Z.gtb_spec earlier 20), (Z.gtb_spec later 20); try lia;
    repeat split; try done; try lia; apply Qle_refl.
Qed.

Lemma lrs_never_raises_the_rate_witness :
  lrs (VFloat (FFinite (1 # 1000))) 20 = Ret (VFloat (FFinite (1 # 1000))) /\
  (rate_at (1 # 1000) 21 <= rate_at (1 # 1000) 20)%Q.
Proof.
  destruct (lrs_never_raises_the_rate (1 # 1000) 20 21) as (H1 & _ & H3 & _);
    [done | lia |].
  split; [exact H1 | exact H3].
Defined.

(** A value that is no number: [None], a text, a list, an object. *)
Definition not_a_number (v : pyval) : bool :=
  match as_num v with Some _ => false | None => true end.

(** X10: [setup_callbacks] does not look at [lr].  With a rate that
    is no number it still returns its callbacks; the schedule it has
    handed to the scheduler answers that same value up to epoch 20, and
    raises [TypeError] at every later epoch. *)
Theorem schedule_fails_late ask (folder : string) (batch_size : Z)
    (lr : pyval) (w : world) :
  reliable ask -> not_a_number lr = true ->
  let r := setup_callbacks ask (VStr folder) (VInt batch_size) lr w in
  returned (fst r) = true /\
  exists schedule,
    last (trace (snd r)) = Some (Called (LearningRateScheduler schedule)) /\
    (forall epoch, epoch <= 20 -> schedule epoch = Ret lr) /\
    (forall epoch, 20 < epoch -> exists msg, schedule epoch = Raise (TypeError msg)).
Proof.
  intros Hr Hlr.
  destruct (setup_callbacks_run ask folder batch_size lr w Hr)
    as (c & t & l & _ & _ & _ & ->).
  split; [done|]. exists (lrs lr). cbn [snd]. split.
  - change (trace (record ?e ?w0)) with (trace w0 ++ [e]). apply last_snoc.
  - unfold lrs, truediv_int, not_a_number in *.
    split; intros epoch He.
    + by destruct (Z.gtb_spec epoch 20); [lia|].
    + destruct (Z.gtb_spec epoch 20); [|lia].
      destruct (as_num lr); [done | eauto].
Qed.

Lemma schedule_fails_late_witness :
  returned (fst (setup_callbacks Sample.steady (VStr "runs/w") (VInt 8) VNone
                   (Sample.start (Sample.stage_params true false false) [])))
  = true.
Proof.
  apply (schedule_fails_late Sample.steady "runs/w" 8 VNone
           (Sample.start (Sample.stage_params true false false) [])
           steady_reliable eq_refl).
Defined.

(** ** Training *)

(** X11: [train] with a batch size of 0, on a dataset with integer
    sizes, raises [ZeroDivisionError] after it has asked the dataset for
    its training and validation sets and before any call to [fit] or
    [fit_generator]. *)
Theorem train_with_zero_batch ask (dataset model init_epoch epochs callbacks
                                     augmentation : pyval) (w : world) :
  reliable ask -> sized ask dataset ->
  let r := train ask dataset model init_epoch epochs (VInt 0) callbacks
                 augmentation w in
  fst r = Raise ZeroDivisionError /\
  exists evs,
    trace (snd r) = trace w ++ evs /\
    Called (GetTrainingSet dataset) ∈ evs /\
    Called (GetValidationSet dataset) ∈ evs /\
    forall e, e ∈ evs -> is_fit e = false.
Proof.
  intros Hr Hs r.
  enough (exists w',
             r = (Raise ZeroDivisionError, w') /\
             exists evs,
               trace w' = trace w ++ evs /\
               Called (GetTrainingSet dataset) ∈ evs /\
               Called (GetValidationSet dataset) ∈ evs /\
               forallb (fun e => negb (is_fit e)) evs = true)
    as (w' & -> & evs & Ht & H1 & H2 & H3).
  { split; [done|]. exists evs. cbn [snd]. repeat split; try done.
    intros e He%list_elem_of_In. rewrite forallb_forall in H3.
    by apply negb_true_iff, H3. }
  subst r. unfold train.
  log_step. log_step. call_step ask Hr. log_step.
  str_step ask Hr; log_step; str_step ask Hr; log_step;
    (unfold bind at 1, external at 1;
     match goal with
     | |- context [ask _ ?w0 (GetTrainingSet dataset)] =>
         destruct (proj1 (Hs w0)) as (ts & nt & ->)
     end; cbv beta iota zeta);
    (unfold bind at 1, external at 1;
     match goal with
     | |- context [ask _ ?w0 (GetValidationSet dataset)] =>
         destruct (proj2 (Hs w0)) as (vs & nv & ->)
     end; cbv beta iota zeta);
    (unfold bind at 1;
     change (steps_for (VInt nt) (VInt 0)) with (@Raise pyval ZeroDivisionError);
     cbn [lift]);
    (eexists; split; [reflexivity|]);
    (eexists; split; [trace_is_prefix|]);
    (split; [|split]; [| | reflexivity]);
    apply list_elem_of_In; cbn; tauto.
Qed.

(** X12: [train] with a batch size other than 0, collaborators
    that do not fail and integer set sizes returns, having fitted exactly
    once, just before its last log line: [fit_generator] when
    [augmentation] is truthy, [fit] on the training set otherwise, in
    both cases with [size // batch_size + 1] training and validation
    steps for the sizes the dataset has reported, the validation set as
    validation data, and the epochs, callbacks and initial epoch it was
    given. *)
Theorem train_fits_once ask (dataset model init_epoch epochs callbacks
                               augmentation : pyval) (batch_size : Z)
    (w : world) :
  reliable ask -> sized ask dataset -> batch_size <> 0 ->
  let r := train ask dataset model init_epoch epochs (VInt batch_size)
                 callbacks augmentation w in
  fst r = Ret tt /\
  exists before data training validation training_size validation_size w1 w2,
    ask _ w1 (GetTrainingSet dataset) = Ret (training, VInt training_size) /\
    ask _ w2 (GetValidationSet dataset) = Ret (validation, VInt validation_size) /\
    (truthy augmentation = false -> data = training) /\
    (forall e, e ∈ before -> is_fit e = false) /\
    trace (snd r)
    = trace w ++ before
      ++ [Called (Fit (truthy augmentation) model data epochs
                      (VInt (training_size / batch_size + 1)) validation
                      (VInt (validation_size / batch_size + 1)) callbacks
                      init_epoch);
          Logged "training" "info"
                 ("Training procedure performed successfully!" +:+ newline) []].
Proof. apply train_run. Qed.

Lemma train_with_zero_batch_witness :
  fst (train Sample.steady (VObj 14) (VObj 1) (VInt 5) (VInt 1) (VInt 0)
             (VList []) (VBool false)
             (Sample.start (Sample.stage_params true false false) []))
  = Raise ZeroDivisionError.
Proof.
  exact (proj1 (train_with_zero_batch Sample.steady (VObj 14) (VObj 1) (VInt 5)
                  (VInt 1) (VList []) (VBool false)
                  (Sample.start (Sample.stage_params true false false) [])
                  steady_reliable (steady_sized _))).
Defined.

Lemma train_fits_once_witness :
  fst (train Sample.steady (VObj 14) (VObj 1) (VInt 5) (VInt 1) (VInt 8)
             (VList []) (VBool false)
             (Sample.start (Sample.stage_params true false false) []))
  = Ret tt.
Proof.
  refine (proj1 (train_fits_once Sample.steady (VObj 14) (VObj 1) (VInt 5)
                   (VInt 1) (VList []) (VBool false) 8
                   (Sample.start (Sample.stage_params true false false) [])
                   steady_reliable (steady_sized _) _)).
  lia.
Defined.

(** ** Restoring *)

Definition is_load (e : event) : bool :=
  match e with
  | Called c => match c with LoadWeights _ _ => true | _ => false end
  | _ => false
  end.

Lemma py_str_world ask v w :
  snd (py_str ask v w) = w \/ snd (py_str ask v w) = record (Called (Repr v)) w.
Proof. destruct v; cbn; auto. Qed.

(** What a run of [restore_weights] can leave behind: no change to the
    file system or to the store, and at most one weights file loaded, at
    the very end, from a path that is a regular file. *)
Definition loads_last (model : pyval) (w : world) (r : outcome unit * world)
  : Prop :=
  fs (snd r) = fs w /\ heap (snd r) = heap w /\
  exists before loads,
    trace (snd r) = trace w ++ before ++ loads /\
    (forall e, e ∈ before -> is_load e = false) /\
    (loads = [] \/
     exists path, loads = [Called (LoadWeights model path)] /\
                  isfile (fs w) path = true) /\
    (fst r = Ret tt -> loads <> []).

Lemma loads_last_early model v w w1 e :
  w1 = w \/ w1 = record (Called (Repr v)) w ->
  loads_last model w (Raise e, w1).
Proof.
  intros [-> | ->]; (split; [done|]); (split; [done|]).
  - exists [], []. rewrite !app_nil_r.
    repeat split; try done; [by intros ? ?%elem_of_nil | by left].
  - exists [Called (Repr v)], []. cbn.
    repeat split; try done; [| by left].
    by intros ? ->%list_elem_of_singleton.
Qed.

(** X13: whatever its arguments, [restore_weights] leaves the file
    system and the store as they were and loads at most one weights file:
    a load, if there is one, is the last thing it does and is from a path
    that is a regular file; without a load it does not return normally. *)
Theorem restore_loads_last ask (model init_epoch folder : pyval) (w : world) :
  loads_last model w (restore_weights ask model init_epoch folder w).
Proof.
  unfold restore_weights, init_epoch_str.
  unfold bind at 1. unfold bind at 1. unfold lift at 1.
  destruct (lt_int init_epoch 10) as [small | e];
    [| by apply (loads_last_early model init_epoch); left].
  unfold bind at 1.
  pose proof (py_str_world ask init_epoch w) as Hw.
  destruct (py_str ask init_epoch w) as [[digits | e] w1]; cbn [snd] in Hw;
    [| by apply (loads_last_early model init_epoch)].
  unfold ret at 1. set (epoch_text := if small then _ else _).
  unfold bind at 1, lift at 1.
  destruct (as_str folder) as [dir | e];
    [| by apply (loads_last_early model init_epoch)].
  cbv zeta. unfold bind at 1, glob_glob at 1.
  unfold bind at 1, assert at 1.
  destruct (bool_decide _);
    [| by apply (loads_last_early model init_epoch)].
  unfold ret at 1. unfold bind at 1, os_path_isfile at 1.
  unfold bind at 1, assert at 1.
  set (path := Path.join dir _).
  destruct (isfile (fs w1) path) eqn:Hfile;
    [| by apply (loads_last_early model init_epoch)].
  unfold ret at 1. unfold bind at 1. cbn [log emit]. unfold external.
  assert (Hfs : fs w1 = fs w) by (by destruct Hw as [-> | ->]).
  assert (Hheap : heap w1 = heap w) by (by destruct Hw as [-> | ->]).
  split; [exact Hfs|]. split; [exact Hheap|]. cbn [fst snd].
  destruct Hw as [-> | ->].
  - eexists [_], [_]. split; [settle_trace; by rewrite <- !app_assoc|].
    split; [by intros ? ->%list_elem_of_singleton|].
    split; [right; by exists path | done].
  - eexists [_; _], [_]. split; [settle_trace; by rewrite <- !app_assoc|].
    split; [by intros ? [-> | ->%list_elem_of_singleton]%elem_of_cons|].
    split; [right; by exists path | done].
Qed.

(** ** Missing keys *)

Definition shape_keys : list string :=
  ["input_width"; "input_height"; "input_channels"].

Lemma set_input_shape_missing model_params w key :
  key ∈ shape_keys -> dict_at model_params w !! key = None ->
  exists missing,
    missing ∈ shape_keys /\ dict_at model_params w !! missing = None /\
    set_input_shape model_params w = (Raise (KeyError missing), w).
Proof.
  intros Hkey Hnone.
  unfold set_input_shape, bind, lookup_key, store_input_shape.
  destruct (dict_at model_params w !! "input_width") eqn:Ew;
    [| exists "input_width"; repeat split; try done;
       apply list_elem_of_In; cbn; tauto].
  destruct (dict_at model_params w !! "input_height") eqn:Eh;
    [| exists "input_height"; repeat split; try done;
       apply list_elem_of_In; cbn; tauto].
  destruct (dict_at model_params w !! "input_channels") eqn:Ec;
    [| exists "input_channels"; repeat split; try done;
       apply list_elem_of_In; cbn; tauto].
  exfalso. apply list_elem_of_In in Hkey. cbn in Hkey.
  destruct Hkey as [<- | [<- | [<- | []]]]; congruence.
Qed.

(** X14: when one of [input_width], [input_height] and
    [input_channels] is in neither dictionary, [run_detection] and
    [run_classification] raise [KeyError] for a missing one of these keys
    right after the merge: the merge is all that has happened, no stored
    shape, no check of the folder, no model. *)
Theorem stages_stop_without_a_shape ask (model_params : loc)
    (weights_path : string) (w : world) (key : string) :
  key ∈ shape_keys -> effective model_params w !! key = None ->
  (forall dataset_avg_size,
     exists missing,
       missing ∈ shape_keys /\ effective model_params w !! missing = None /\
       run_detection ask model_params dataset_avg_size weights_path w
       = (Raise (KeyError missing), merged model_params w)) /\
  (forall train_list bbox_predictions,
     exists missing,
       missing ∈ shape_keys /\ effective model_params w !! missing = None /\
       run_classification ask model_params train_list bbox_predictions
                          weights_path w
       = (Raise (KeyError missing), merged model_params w)).
Proof.
  intros Hkey Hnone.
  destruct (set_input_shape_missing model_params (merged model_params w) key
              Hkey) as (missing & Hin & Hm & Hrun).
  { by rewrite dict_at_merged. }
  rewrite dict_at_merged in Hm.
  split; intros; exists missing; (split; [done|]); (split; [done|]).
  - unfold run_detection. unfold bind at 1. rewrite merge_run.
    unfold bind at 1. by rewrite Hrun.
  - unfold run_classification. unfold bind at 1. rewrite merge_run.
    unfold bind at 1. by rewrite Hrun.
Qed.

Lemma stages_stop_without_a_shape_witness :
  exists missing,
    run_detection Sample.steady 2%positive (VObj 12) "runs/w"
                  (Sample.start (delete "input_height"
                                   (Sample.stage_params false false false)) [])
    = (Raise (KeyError missing),
       merged 2%positive
              (Sample.start (delete "input_height"
                               (Sample.stage_params false false false)) [])).
Proof.
  destruct (stages_stop_without_a_shape Sample.steady 2%positive "runs/w"
              (Sample.start (delete "input_height"
                               (Sample.stage_params false false false)) [])
              "input_height") as (Hd & _).
  - apply list_elem_of_In. cbn. tauto.
  - by vm_compute.
  - destruct (Hd (VObj 12)) as (missing & _ & _ & Hrun). by exists missing.
Defined.

(** ** Preprocessing without training *)

(** X15: with [train] falsy, [run_preprocessing] needs nothing else
    of the configuration and nothing of the weights folder: when the
    collaborators do not fail it returns the dataset it has constructed,
    and its events are exactly the merge, its log line, the construction
    of the dataset and the generation of the vocabulary; the user is not
    asked and nothing is removed. *)
Theorem preprocessing_reads_only_the_train_flag ask (model_params : loc)
    (weights_path : string) (w : world) :
  reliable ask -> has (effective model_params w) "train" falsy ->
  let r := run_preprocessing ask model_params weights_path w in
  let started :=
    record (Logged "execution" "info" "Preprocessing the data..." [])
           (merged model_params w) in
  exists dataset,
    ask _ started (NewPreprocessingDataset model_params) = Ret dataset /\
    fst r = Ret dataset /\
    trace (snd r)
    = trace w ++ [Updated model_params (dataset_params (self w));
                  Logged "execution" "info" "Preprocessing the data..." [];
                  Called (NewPreprocessingDataset model_params);
                  Called (PreprocessingGenerate dataset)].
Proof.
  intros Hr (flag & Hflag & Hfalsy) r started.
  unfold falsy in Hfalsy. apply negb_true_iff in Hfalsy.
  enough (exists dataset w',
             ask _ started (NewPreprocessingDataset model_params) = Ret dataset /\
             r = (Ret dataset, w') /\
             trace w'
             = trace w ++ [Updated model_params (dataset_params (self w));
                           Logged "execution" "info"
                                  "Preprocessing the data..." [];
                           Called (NewPreprocessingDataset model_params);
                           Called (PreprocessingGenerate dataset)])
    as (dataset & w' & H1 & -> & H2) by (by exists dataset).
  subst r started.
  unfold run_preprocessing. unfold bind at 1. rewrite merge_run.
  unfold bind at 1, check_if_fresh_training.
  unfold bind at 1, lookup_key at 1. rewrite dict_at_merged, Hflag, Hfalsy.
  unfold bind at 1, ret at 1. unfold ret at 1.
  unfold preprocessing_body. unfold bind at 1. cbn [log emit].
  unfold bind at 1, external at 1.
  pose proof (Hr _ (record (Logged "execution" "info"
                                   "Preprocessing the data..." [])
                           (merged model_params w))
                 (NewPreprocessingDataset model_params)) as H1.
  destruct (ask pyval _ (NewPreprocessingDataset model_params))
    as [dataset |] eqn:E1; [|discriminate H1].
  cbv beta iota. call_step ask Hr.
  exists dataset. eexists. split; [done|].
  split; [reflexivity|].
  unfold merged. cbn [with_self trace]. settle_trace.
  by rewrite <- ?app_assoc.
Qed.

Lemma preprocessing_reads_only_the_train_flag_witness :
  fst (run_preprocessing Sample.steady 2%positive "runs/w"
         (Sample.start {[ "train" := VBool false ]} ["n"]))
  = Ret (VObj 12).
Proof.
  destruct (preprocessing_reads_only_the_train_flag Sample.steady 2%positive
              "runs/w" (Sample.start {[ "train" := VBool false ]} ["n"])
              steady_reliable)
    as (dataset & Hd & -> & _).
  - exists (VBool false). split; by vm_compute.
  - cbn in Hd. by simplify_eq.
Defined.
